(** * ecef_to_sez.py: ECEF to SEZ conversion

    A shallow embedding of the script [ecef_to_sez.py] and the proofs of its
    specification.

    Numbers.  A Python float is modelled as a real number or NaN
    ([pyfloat]).  Every arithmetic operation and every [math] function is
    the exact real one on finite operands and propagates NaN as IEEE 754
    does; the exceptions Python raises ([ZeroDivisionError] on a zero
    divisor, [ValueError] outside the domain of [math.sqrt] and
    [math.asin], [IndexError] on a list index out of range) are kept.
    Rounding, signed zeros and infinities are outside the model.

    Range.  [a ** 2] is the exact square in [fsquare].  The squares of
    the origin (lines 93 and 94) are the one place where the binary64
    range changes what the script does: a square too large raises
    [OverflowError], a square too small is [0.0] and can zero a divisor.
    The [checked_] definitions are the same lines with these two paths;
    they coincide with the exact ones on components that are zero or
    between 1e-150 and 1e150 in magnitude.

    Control.  Code that can raise runs in the error monad [result]; the
    [while] loop of the latitude iteration is a fuelled recursion whose
    exhaustion is the separate outcome [OutOfFuel], never an answer. *)

From Stdlib Require Import String.
From Stdlib Require Import Reals Lra Lia List Bool Arith.
Import ListNotations.

Open Scope R_scope.

(** ** Exceptions and the error monad *)

Inductive exn : Type :=
| ZeroDivisionError
| ValueError (msg : string)
| IndexError
| OverflowError.

Inductive result (A : Type) : Type :=
| Ok (a : A)
| Raise (e : exn)
| OutOfFuel.

Arguments Ok {A} a.
Arguments Raise {A} e.
Arguments OutOfFuel {A}.

Definition bind {A B : Type} (m : result A) (f : A -> result B) : result B :=
  match m with
  | Ok a => f a
  | Raise e => Raise e
  | OutOfFuel => OutOfFuel
  end.

Notation "x <- m ;; k" := (bind m (fun x => k))
  (at level 61, m at next level, right associativity).

(** ** Lists as Python uses them *)

(** [l[i]] for a non-negative index. *)
Definition get_item {A : Type} (l : list A) (i : nat) : result A :=
  match nth_error l i with
  | Some a => Ok a
  | None => Raise IndexError
  end.

(** [l[i] = v] for a non-negative index. *)
Fixpoint set_item {A : Type} (l : list A) (i : nat) (v : A) : result (list A) :=
  match l, i with
  | [], _ => Raise IndexError
  | _ :: t, O => Ok (v :: t)
  | h :: t, S i' => t' <- set_item t i' v ;; Ok (h :: t')
  end.

(** [for i in range(n): s = body i s]. *)
Fixpoint for_each {S : Type} (l : list nat) (body : nat -> S -> result S)
  (s : S) : result S :=
  match l with
  | [] => Ok s
  | i :: l' => s' <- body i s ;; for_each l' body s'
  end.

Definition for_range {S : Type} (n : nat) (body : nat -> S -> result S)
  (s : S) : result S :=
  for_each (seq 0 n) body s.

(** ** matrix_multiply *)

Definition dimension_message : string :=
  "Matrix multiplication is not possible. Columns of matrix1 must equal rows of matrix2.".

Section MatrixMultiply.

(** The helper is generic in its entries: it only adds and multiplies
    them, starting every sum from the integer [0]. *)
Variable E : Type.
Variable zero : E.
Variables add mul : E -> E -> E.

Definition matrix : Type := list (list E).

(** [result[i][j] += matrix1[i][k] * matrix2[k][j]]: the target row and
    its entry are read first, then the two factors; the row is updated in
    place, which the write back into [res] records.  The rows of
    [result] are distinct lists, so no other row changes. *)
Definition accumulate (matrix1 matrix2 : matrix) (i j k : nat)
  (res : matrix) : result matrix :=
  row <- get_item res i ;;
  cur <- get_item row j ;;
  r1 <- get_item matrix1 i ;;
  a <- get_item r1 k ;;
  r2 <- get_item matrix2 k ;;
  b <- get_item r2 j ;;
  row' <- set_item row j (add cur (mul a b)) ;;
  set_item res i row'.

Definition matrix_multiply (matrix1 matrix2 : matrix) : result matrix :=
  let rows_matrix1 := length matrix1 in
  first1 <- get_item matrix1 0 ;;
  let cols_matrix1 := length first1 in
  let rows_matrix2 := length matrix2 in
  first2 <- get_item matrix2 0 ;;
  let cols_matrix2 := length first2 in
  if negb (Nat.eqb cols_matrix1 rows_matrix2) then
    Raise (ValueError dimension_message)
  else
    let res := repeat (repeat zero cols_matrix2) rows_matrix1 in
    for_range rows_matrix1 (fun i =>
      for_range cols_matrix2 (fun j =>
        for_range cols_matrix1 (fun k =>
          accumulate matrix1 matrix2 i j k))) res.

End MatrixMultiply.

Arguments matrix_multiply {E} zero add mul matrix1 matrix2.
Arguments accumulate {E} add mul matrix1 matrix2 i j k res.

(** ** Python floats *)

Inductive pyfloat : Type :=
| Fin (r : R)
| NaN.

Definition lift1 (f : R -> R) (a : pyfloat) : pyfloat :=
  match a with
  | Fin x => Fin (f x)
  | NaN => NaN
  end.

Definition lift2 (f : R -> R -> R) (a b : pyfloat) : pyfloat :=
  match a, b with
  | Fin x, Fin y => Fin (f x y)
  | _, _ => NaN
  end.

Definition fadd : pyfloat -> pyfloat -> pyfloat := lift2 Rplus.
Definition fsub : pyfloat -> pyfloat -> pyfloat := lift2 Rminus.
Definition fmul : pyfloat -> pyfloat -> pyfloat := lift2 Rmult.
Definition fneg : pyfloat -> pyfloat := lift1 Ropp.
Definition fabs : pyfloat -> pyfloat := lift1 Rabs.

(** [a ** 2] *)
Definition fsquare : pyfloat -> pyfloat := lift1 (fun x => x ^ 2).

(** [a / b]: Python tests the divisor against zero before dividing, so a
    zero divisor raises whatever the dividend is, NaN included. *)
Definition fdiv (a b : pyfloat) : result pyfloat :=
  match b with
  | Fin y => if Req_dec_T y 0 then Raise ZeroDivisionError
             else Ok (lift1 (fun x => x / y) a)
  | NaN => Ok NaN
  end.

(** [a > b]: false as soon as an operand is NaN. *)
Definition fgt (a b : pyfloat) : bool :=
  match a, b with
  | Fin x, Fin y => if Rlt_dec y x then true else false
  | _, _ => false
  end.

Definition math_isnan (a : pyfloat) : bool :=
  match a with
  | NaN => true
  | Fin _ => false
  end.

Definition domain_message : string := "math domain error".

Definition math_sqrt (a : pyfloat) : result pyfloat :=
  match a with
  | Fin x => if Rlt_dec x 0 then Raise (ValueError domain_message)
             else Ok (Fin (sqrt x))
  | NaN => Ok NaN
  end.

Definition math_asin (a : pyfloat) : result pyfloat :=
  match a with
  | Fin x => if Rlt_dec 1 (Rabs x) then Raise (ValueError domain_message)
             else Ok (Fin (asin x))
  | NaN => Ok NaN
  end.

Definition math_sin : pyfloat -> pyfloat := lift1 sin.
Definition math_cos : pyfloat -> pyfloat := lift1 cos.
Definition math_atan : pyfloat -> pyfloat := lift1 atan.

(** The angle of the point [(x, y)], as C's [atan2 y x] defines it.
    The model has one zero: where the script holds [y = -0.0] with
    [x < 0] its angle is -pi, and this one is pi; the theorems on the
    value of the longitude leave that half-plane out. *)
Definition atan2 (y x : R) : R :=
  if Rlt_dec 0 x then atan (y / x)
  else if Rlt_dec x 0 then
    if Rle_dec 0 y then atan (y / x) + PI else atan (y / x) - PI
  else if Rlt_dec 0 y then PI / 2
  else if Rlt_dec y 0 then - (PI / 2)
  else 0.

Definition math_atan2 : pyfloat -> pyfloat -> pyfloat := lift2 atan2.

(** ** The script *)

Definition R_E_KM : pyfloat := Fin 6378.137.
Definition E_E : pyfloat := Fin 0.081819221456.

Definition calc_denom (ecc lat_rad : pyfloat) : result pyfloat :=
  math_sqrt (fsub (Fin 1.0)
                  (fmul (fsquare ecc) (fsquare (math_sin lat_rad)))).

(** The variables the latitude loop assigns. *)
Record lat_state : Type := mk_lat_state {
  o_lat_rad : pyfloat;
  prev_lat_rad : pyfloat;
  c_E : pyfloat;
  count : nat
}.

(** [(math.isnan(prev_lat_rad) or abs(o_lat_rad-prev_lat_rad)>10e-7)
     and count<5] *)
Definition loop_guard (st : lat_state) : bool :=
  (math_isnan (prev_lat_rad st)
   || fgt (fabs (fsub (o_lat_rad st) (prev_lat_rad st))) (Fin 10e-7))
  && (count st <? 5)%nat.

Definition loop_body (o_z_km r_lon_km : pyfloat) (st : lat_state)
  : result lat_state :=
  denom <- calc_denom E_E (o_lat_rad st) ;;
  c <- fdiv R_E_KM denom ;;
  let prev := o_lat_rad st in
  q <- fdiv (fadd o_z_km (fmul (fmul c (fsquare E_E)) (math_sin (o_lat_rad st))))
            r_lon_km ;;
  Ok (mk_lat_state (math_atan q) prev c (count st + 1)).

Fixpoint lat_loop (fuel : nat) (o_z_km r_lon_km : pyfloat) (st : lat_state)
  : result lat_state :=
  if loop_guard st then
    match fuel with
    | O => OutOfFuel
    | S fuel' =>
        st' <- loop_body o_z_km r_lon_km st ;;
        lat_loop fuel' o_z_km r_lon_km st'
    end
  else Ok st.

(** Lines 88 to 105: longitude, initial latitude and the loop. *)
Definition initial_state (o_x_km o_y_km o_z_km : pyfloat) : result lat_state :=
  norm <- math_sqrt (fadd (fadd (fsquare o_x_km) (fsquare o_y_km))
                          (fsquare o_z_km)) ;;
  q <- fdiv o_z_km norm ;;
  lat0 <- math_asin q ;;
  Ok (mk_lat_state lat0 NaN NaN 0).

Definition geodetic_solve (fuel : nat) (o_x_km o_y_km o_z_km : pyfloat)
  : result (lat_state * pyfloat) :=
  let o_lon_rad := math_atan2 o_y_km o_x_km in
  st0 <- initial_state o_x_km o_y_km o_z_km ;;
  r_lon_km <- math_sqrt (fadd (fsquare o_x_km) (fsquare o_y_km)) ;;
  st <- lat_loop fuel o_z_km r_lon_km st0 ;;
  Ok (st, o_lon_rad).

(** Lines 107 to 119. *)
Definition Ryinv (lat : pyfloat) : matrix pyfloat :=
  [ [math_sin lat; Fin 0; fneg (math_cos lat)];
    [Fin 0;        Fin 1; Fin 0];
    [math_cos lat; Fin 0; math_sin lat] ].

Definition Rzinv (lon : pyfloat) : matrix pyfloat :=
  [ [math_cos lon;        math_sin lon; Fin 0];
    [fneg (math_sin lon); math_cos lon; Fin 0];
    [Fin 0;               Fin 0;        Fin 1] ].

Definition fmatmul : matrix pyfloat -> matrix pyfloat -> result (matrix pyfloat) :=
  matrix_multiply (Fin 0) fadd fmul.

Definition sez_transform (lat lon o_x_km o_y_km o_z_km x_km y_km z_km : pyfloat)
  : result (matrix pyfloat) :=
  let r_rel_ecef :=
    [ [fsub x_km o_x_km]; [fsub y_km o_y_km]; [fsub z_km o_z_km] ] in
  inner <- fmatmul (Rzinv lon) r_rel_ecef ;;
  fmatmul (Ryinv lat) inner.

(** The three printed values. *)
Definition printed (r_sez : matrix pyfloat)
  : result (pyfloat * pyfloat * pyfloat) :=
  r0 <- get_item r_sez 0 ;; s <- get_item r0 0 ;;
  r1 <- get_item r_sez 1 ;; e <- get_item r1 0 ;;
  r2 <- get_item r_sez 2 ;; z <- get_item r2 0 ;;
  Ok (s, e, z).

(** The script after argument parsing, on the six parsed floats. *)
Definition main (fuel : nat) (o_x_km o_y_km o_z_km x_km y_km z_km : pyfloat)
  : result (pyfloat * pyfloat * pyfloat) :=
  geo <- geodetic_solve fuel o_x_km o_y_km o_z_km ;;
  r_sez <- sez_transform (o_lat_rad (fst geo)) (snd geo)
             o_x_km o_y_km o_z_km x_km y_km z_km ;;
  printed r_sez.

(** ** The squares of the origin with their range

    Two effects of the binary64 range stay outside these definitions as
    well: a sum of squares that overflows is infinite in the script, and
    a subnormal square has lost digits.  Both need a component beyond
    1e150 or below 1e-150 in magnitude. *)

(** The least real whose nearest binary64 is infinite, and the largest
    one whose nearest binary64 is zero. *)
Definition overflow_bound : R := 2 ^ 1024 - 2 ^ 970.
Definition underflow_bound : R := / 2 ^ 1075.

(** [a ** 2] on a binary64: [OverflowError] when the square rounds
    beyond the largest float, [0.0] when it rounds to zero. *)
Definition checked_square (a : pyfloat) : result pyfloat :=
  match a with
  | Fin x => if Rle_dec overflow_bound (x ^ 2) then Raise OverflowError
             else if Rle_dec (x ^ 2) underflow_bound then Ok (Fin 0)
             else Ok (Fin (x ^ 2))
  | NaN => Ok NaN
  end.

(** Line 93. *)
Definition checked_initial_state (o_x_km o_y_km o_z_km : pyfloat)
  : result lat_state :=
  sx <- checked_square o_x_km ;;
  sy <- checked_square o_y_km ;;
  sz <- checked_square o_z_km ;;
  norm <- math_sqrt (fadd (fadd sx sy) sz) ;;
  q <- fdiv o_z_km norm ;;
  lat0 <- math_asin q ;;
  Ok (mk_lat_state lat0 NaN NaN 0).

(** Lines 88 to 105. *)
Definition checked_geodetic_solve (fuel : nat) (o_x_km o_y_km o_z_km : pyfloat)
  : result (lat_state * pyfloat) :=
  let o_lon_rad := math_atan2 o_y_km o_x_km in
  st0 <- checked_initial_state o_x_km o_y_km o_z_km ;;
  sx <- checked_square o_x_km ;;
  sy <- checked_square o_y_km ;;
  r_lon_km <- math_sqrt (fadd sx sy) ;;
  st <- lat_loop fuel o_z_km r_lon_km st0 ;;
  Ok (st, o_lon_rad).

(** Lines 88 to 123. *)
Definition checked_main (fuel : nat)
  (o_x_km o_y_km o_z_km x_km y_km z_km : pyfloat)
  : result (pyfloat * pyfloat * pyfloat) :=
  geo <- checked_geodetic_solve fuel o_x_km o_y_km o_z_km ;;
  r_sez <- sez_transform (o_lat_rad (fst geo)) (snd geo)
             o_x_km o_y_km o_z_km x_km y_km z_km ;;
  printed r_sez.

(** * Vocabulary of the properties *)

(** A list of [m] rows with [n] entries each. *)
Definition shape {E : Type} (M : matrix E) (m n : nat) : Prop :=
  length M = m /\ Forall (fun row => length row = n) M.

(** What [calc_denom E_E] returns at a numeric latitude. *)
Definition denom_at (a : R) : R :=
  sqrt (1.0 - 0.081819221456 ^ 2 * sin a ^ 2).

(** The quotient whose arctangent is the next latitude. *)
Definition next_tan (z r a : R) : R :=
  (z + 6378.137 / denom_at a * 0.081819221456 ^ 2 * sin a) / r.



(** The sine of the geocentric latitude. *)
Definition sin_lat0 (x y z : R) : R := z / sqrt (x ^ 2 + y ^ 2 + z ^ 2).

(** Entry by entry, what the nested loops leave in a 3x3 by 3x1 product:
    each sum starts from the integer [0] and adds the terms from left to
    right. *)
Definition row_times (a b c v0 v1 v2 : pyfloat) : pyfloat :=
  fadd (fadd (fadd (Fin 0) (fmul a v0)) (fmul b v1)) (fmul c v2).

(** The three entries the second product leaves, from the relative
    vector [(dx, dy, dz)]. *)
Definition sez_components (lat lon dx dy dz : pyfloat)
  : pyfloat * pyfloat * pyfloat :=
  let u0 := row_times (math_cos lon) (math_sin lon) (Fin 0) dx dy dz in
  let u1 := row_times (fneg (math_sin lon)) (math_cos lon) (Fin 0) dx dy dz in
  let u2 := row_times (Fin 0) (Fin 0) (Fin 1) dx dy dz in
  (row_times (math_sin lat) (Fin 0) (fneg (math_cos lat)) u0 u1 u2,
   row_times (Fin 0) (Fin 1) (Fin 0) u0 u1 u2,
   row_times (math_cos lat) (Fin 0) (math_sin lat) u0 u1 u2).

(** The rotations as the specification writes them: the sum of the
    products of a row with a vector, *)
Definition dot (row v : list pyfloat) : pyfloat :=
  fold_right fadd (Fin 0) (map (fun p => fmul (fst p) (snd p)) (combine row v)).

(** and a matrix applied to a vector. *)
Definition apply_matrix (M : matrix pyfloat) (v : list pyfloat) : list pyfloat :=
  map (fun row => dot row v) M.

(** The rows the specification gives for the latitude rotation. *)
Definition Ry_inverse_rows (lat : pyfloat) : matrix pyfloat :=
  [ [math_sin lat; Fin 0; fneg (math_cos lat)];
    [Fin 0; Fin 1; Fin 0];
    [math_cos lat; Fin 0; math_sin lat] ].

(** The rows the specification gives for the longitude rotation. *)
Definition Rz_inverse_rows (lon : pyfloat) : matrix pyfloat :=
  [ [math_cos lon; math_sin lon; Fin 0];
    [fneg (math_sin lon); math_cos lon; Fin 0];
    [Fin 0; Fin 0; Fin 1] ].

(** [Ry^-1 (Rz^-1 (target - origin))]. *)
Definition sez_by_rotations (lat lon o_x_km o_y_km o_z_km x_km y_km z_km : pyfloat)
  : list pyfloat :=
  apply_matrix (Ry_inverse_rows lat)
    (apply_matrix (Rz_inverse_rows lon)
       [fsub x_km o_x_km; fsub y_km o_y_km; fsub z_km o_z_km]).

(** The transpose of a matrix whose rows are as long as its first. *)
Definition transpose (M : matrix pyfloat) : matrix pyfloat :=
  map (fun j => map (fun row => nth j row NaN) M)
      (seq 0 (length (hd [] M))).

Definition identity3 : matrix pyfloat :=
  [ [Fin 1; Fin 0; Fin 0]; [Fin 0; Fin 1; Fin 0]; [Fin 0; Fin 0; Fin 1] ].

(** ** Vocabulary of the further properties *)

(** Entry [(i, j)] of a list of rows, [zero] where there is none. *)
Definition entry {E : Type} (zero : E) (M : matrix E) (i j : nat) : E :=
  nth j (nth i M []) zero.

(** The sum the innermost loop has reached after [k] passes:
    [((0 + A[i][0]*B[0][j]) + A[i][1]*B[1][j]) + ...], [k] terms. *)
Definition partial_dot {E : Type} (zero : E) (add mul : E -> E -> E)
  (A B : matrix E) (i j k : nat) : E :=
  fold_left (fun acc k' => add acc (mul (entry zero A i k') (entry zero B k' j)))
            (seq 0 k) zero.

(** Every row has at least [n] entries. *)
Definition rows_reach {E : Type} (M : matrix E) (n : nat) : Prop :=
  Forall (fun row => (n <= length row)%nat) M.

(** Position [(i', j')] is visited before position [(i, j)] by the two
    outer loops. *)
Definition done_before (i j i' j' : nat) : bool :=
  (i' <? i)%nat || ((i' =? i)%nat && (j' <? j)%nat).

(** The result matrix when the loops stand at [(i, j, k)]: finished
    entries hold their full sum over [n] terms, the current one its
    partial sum, the others the initial [zero]. *)
Definition progress {E : Type} (zero : E) (add mul : E -> E -> E)
  (A B : matrix E) (m n p i j k : nat) (res : matrix E) : Prop :=
  shape res m p /\
  forall i' j', (i' < m)%nat -> (j' < p)%nat ->
    entry zero res i' j' =
    if ((i' =? i)%nat && (j' =? j)%nat)%bool then partial_dot zero add mul A B i j k
    else if done_before i j i' j' then partial_dot zero add mul A B i' j' n
    else zero.

(** An outcome that is a value or an [IndexError]. *)
Definition ok_or_index {A : Type} (r : result A) : Prop :=
  match r with
  | Ok _ => True
  | Raise e => e = IndexError
  | OutOfFuel => False
  end.

(** The loop variables of the origin mirrored in the equatorial plane:
    both latitudes change sign, the curvature radius and the pass count
    stay. *)
Definition mirror_state (st : lat_state) : lat_state :=
  mk_lat_state (fneg (o_lat_rad st)) (fneg (prev_lat_rad st))
               (c_E st) (count st).

(** The identity matrix of size [n], with the integers 1 and 0 the
    caller would write. *)
Definition identity_matrix (n : nat) : matrix pyfloat :=
  map (fun i => map (fun k => if (i =? k)%nat then Fin 1 else Fin 0) (seq 0 n))
      (seq 0 n).

(** Decides the index comparisons of a goal and closes the cases. *)
Ltac index_cases :=
  repeat match goal with
         | |- context [Nat.eqb ?a ?b] => destruct (Nat.eqb_spec a b)
         | |- context [Nat.ltb ?a ?b] => destruct (Nat.ltb_spec a b)
         end;
  simpl; subst; try reflexivity; try lia.

(** A magnitude whose square is a normal binary64, or zero: on these
    [a ** 2] neither overflows nor underflows. *)
Definition moderate (v : R) : Prop :=
  v = 0 \/ 1e-150 <= Rabs v <= 1e150.

Definition moderate_float (a : pyfloat) : Prop :=
  match a with
  | Fin v => moderate v
  | NaN => True
  end.

(** A target component: NaN, or a number whose differences and products
    in the transform stay finite. *)
Definition bounded_float (a : pyfloat) : Prop :=
  match a with
  | Fin v => Rabs v <= 1e150
  | NaN => True
  end.

(** * Properties *)

(** ** The error monad and the list primitives *)

Lemma get_item_lt {A : Type} (l : list A) (i : nat) :
  (i < length l)%nat -> exists a, get_item l i = Ok a /\ nth_error l i = Some a.
Proof.
  intros Hi. unfold get_item.
  destruct (nth_error l i) as [a | ] eqn:Hn.
  - exists a; split; reflexivity.
  - apply nth_error_None in Hn. lia.
Qed.

Lemma set_item_lt {A : Type} (l : list A) (i : nat) (v : A) :
  (i < length l)%nat ->
  exists l', set_item l i v = Ok l' /\ length l' = length l /\
             nth_error l' i = Some v /\
             (forall j, j <> i -> nth_error l' j = nth_error l j).
Proof.
  revert i. induction l as [ | h t IH]; intros i Hi; simpl in Hi; [lia | ].
  destruct i as [ | i'].
  - exists (v :: t). simpl. repeat split.
    intros [ | j] Hj; [congruence | reflexivity].
  - destruct (IH i') as [t' [Hset [Hlen [Hnth Hother]]]]; [lia | ].
    exists (h :: t'). simpl. rewrite Hset. simpl. repeat split.
    + now rewrite Hlen.
    + exact Hnth.
    + intros [ | j] Hj; [reflexivity | ]. simpl. apply Hother. congruence.
Qed.

(** A loop over a list of indices keeps an invariant that every pass keeps,
    and does not raise when no pass does. *)
Lemma for_each_invariant {S : Type} (P : S -> Prop) (l : list nat)
  (body : nat -> S -> result S) :
  (forall i s, In i l -> P s -> exists s', body i s = Ok s' /\ P s') ->
  forall s, P s -> exists s', for_each l body s = Ok s' /\ P s'.
Proof.
  induction l as [ | i l IH]; intros Hbody s Hs; simpl.
  - exists s; split; [reflexivity | exact Hs].
  - destruct (Hbody i s) as [s1 [H1 P1]]; [now left | exact Hs | ].
    rewrite H1. simpl. apply IH; [ | exact P1].
    intros k s0 Hk. apply Hbody. now right.
Qed.

Lemma for_range_invariant {S : Type} (P : S -> Prop) (n : nat)
  (body : nat -> S -> result S) :
  (forall i s, (i < n)%nat -> P s -> exists s', body i s = Ok s' /\ P s') ->
  forall s, P s -> exists s', for_range n body s = Ok s' /\ P s'.
Proof.
  intros Hbody. unfold for_range. apply for_each_invariant.
  intros i s Hi. apply Hbody. apply in_seq in Hi. lia.
Qed.

(** ** Shapes *)

Section Shapes.

Variable E : Type.
Variable zero : E.
Variables add mul : E -> E -> E.

Lemma shape_row (M : matrix E) (m n i : nat) :
  shape M m n -> (i < m)%nat ->
  exists row, get_item M i = Ok row /\ length row = n.
Proof.
  intros [Hlen Hrows] Hi.
  destruct (get_item_lt M i) as [row [Hget Hnth]]; [lia | ].
  exists row; split; [exact Hget | ].
  rewrite Forall_forall in Hrows. apply Hrows.
  eapply nth_error_In; exact Hnth.
Qed.

Lemma shape_repeat (m p : nat) : shape (repeat (repeat zero p) m) m p.
Proof.
  split; [apply repeat_length | ].
  apply Forall_forall. intros row Hin.
  apply repeat_spec in Hin. subst row. apply repeat_length.
Qed.

Lemma shape_set_row (M M' : matrix E) (m p i : nat) (row : list E) :
  shape M m p -> length row = p -> set_item M i row = Ok M' ->
  (i < m)%nat -> shape M' m p.
Proof.
  intros [Hlen Hrows] Hrow Hset Hi.
  destruct (set_item_lt M i row) as [M2 [Hset2 [Hlen2 [Hnth Hother]]]];
    [lia | ].
  rewrite Hset in Hset2. injection Hset2 as <-.
  split; [lia | ].
  apply Forall_forall. intros r Hin.
  apply In_nth_error in Hin. destruct Hin as [j Hj].
  destruct (Nat.eq_dec j i) as [-> | Hne].
  - rewrite Hnth in Hj. injection Hj as <-. exact Hrow.
  - rewrite (Hother j Hne) in Hj.
    rewrite Forall_forall in Hrows. apply Hrows.
    eapply nth_error_In; exact Hj.
Qed.

(** One accumulation step inside the index ranges of the three loops
    succeeds and keeps the shape of the result. *)
Lemma accumulate_shape (A B res : matrix E) (m n p i j k : nat) :
  shape A m n -> shape B n p -> shape res m p ->
  (i < m)%nat -> (j < p)%nat -> (k < n)%nat ->
  exists res', accumulate add mul A B i j k res = Ok res' /\ shape res' m p.
Proof.
  intros HA HB Hres Hi Hj Hk. unfold accumulate.
  destruct (shape_row res m p i Hres Hi) as [row [-> Hrow]]. simpl.
  destruct (get_item_lt row j) as [cur [-> _]]; [lia | ]. simpl.
  destruct (shape_row A m n i HA Hi) as [r1 [-> Hr1]]. simpl.
  destruct (get_item_lt r1 k) as [a [-> _]]; [lia | ]. simpl.
  destruct (shape_row B n p k HB Hk) as [r2 [-> Hr2]]. simpl.
  destruct (get_item_lt r2 j) as [b [-> _]]; [lia | ]. simpl.
  destruct (set_item_lt row j (add cur (mul a b))) as [row' [-> [Hlen' _]]];
    [lia | ]. simpl.
  destruct (set_item_lt res i row') as [res' [Hset _]];
    [destruct Hres; lia | ].
  exists res'; split; [exact Hset | ].
  apply (shape_set_row res res' m p i row' Hres);
    [rewrite Hlen'; exact Hrow | exact Hset | exact Hi].
Qed.

Lemma loops_shape (A B res : matrix E) (m n p : nat) :
  shape A m n -> shape B n p -> shape res m p ->
  exists res',
    for_range m (fun i =>
      for_range p (fun j =>
        for_range n (fun k => accumulate add mul A B i j k))) res = Ok res'
    /\ shape res' m p.
Proof.
  intros HA HB Hres.
  apply for_range_invariant with (P := fun r => shape r m p); [ | exact Hres].
  intros i s Hi Hs.
  apply for_range_invariant with (P := fun r => shape r m p); [ | exact Hs].
  intros j s1 Hj Hs1.
  apply for_range_invariant with (P := fun r => shape r m p); [ | exact Hs1].
  intros k s2 Hk Hs2.
  now apply accumulate_shape with (n := n).
Qed.

(** What [matrix_multiply] does on two non-empty rectangular matrices. *)
Lemma matrix_multiply_compatible (A B : matrix E) (m n p : nat) :
  shape A m n -> shape B n p -> (0 < m)%nat -> (0 < n)%nat ->
  exists C, matrix_multiply zero add mul A B = Ok C /\ shape C m p.
Proof.
  intros HA HB Hm Hn. unfold matrix_multiply.
  destruct (shape_row A m n 0 HA Hm) as [first1 [-> H1]]. simpl.
  destruct (shape_row B n p 0 HB Hn) as [first2 [-> H2]]. simpl.
  destruct HA as [LA RA]. destruct HB as [LB RB].
  rewrite H1, H2, LA, LB, Nat.eqb_refl. simpl.
  apply loops_shape with (n := n); try (split; assumption).
  apply shape_repeat.
Qed.

Lemma matrix_multiply_mismatch (A B : matrix E) (m n n' p : nat) :
  shape A m n -> shape B n' p -> (0 < m)%nat -> (0 < n')%nat -> n <> n' ->
  matrix_multiply zero add mul A B = Raise (ValueError dimension_message).
Proof.
  intros HA HB Hm Hn Hne. unfold matrix_multiply.
  destruct (shape_row A m n 0 HA Hm) as [first1 [-> H1]]. simpl.
  destruct (shape_row B n' p 0 HB Hn) as [first2 [-> H2]]. simpl.
  destruct HB as [LB RB]. rewrite H1, LB.
  apply Nat.eqb_neq in Hne. rewrite Hne. reflexivity.
Qed.

End Shapes.

(** ** Float primitives *)

Lemma math_sqrt_nonneg (x : R) :
  0 <= x -> math_sqrt (Fin x) = Ok (Fin (sqrt x)).
Proof.
  intros Hx. unfold math_sqrt. destruct (Rlt_dec x 0); [lra | reflexivity].
Qed.

Lemma fdiv_nonzero (a : pyfloat) (y : R) :
  y <> 0 -> fdiv a (Fin y) = Ok (lift1 (fun x => x / y) a).
Proof.
  intros Hy. unfold fdiv. destruct (Req_dec_T y 0); [contradiction | reflexivity].
Qed.

Lemma fdiv_zero (a : pyfloat) : fdiv a (Fin 0) = Raise ZeroDivisionError.
Proof.
  unfold fdiv. destruct (Req_dec_T 0 0); [reflexivity | contradiction].
Qed.

Lemma fdiv_not_zero (a b : pyfloat) :
  b <> Fin 0 -> exists q, fdiv a b = Ok q.
Proof.
  intros Hb. destruct b as [y | ].
  - rewrite fdiv_nonzero; [eauto | ]. intros ->. now apply Hb.
  - simpl. eauto.
Qed.

Lemma math_asin_in_domain (x : R) :
  -1 <= x <= 1 -> math_asin (Fin x) = Ok (Fin (asin x)).
Proof.
  intros Hx. unfold math_asin.
  destruct (Rlt_dec 1 (Rabs x)) as [H | H]; [ | reflexivity].
  exfalso. apply Rabs_le in Hx. lra.
Qed.

(** ** calc_denom *)

(** The radicand of [calc_denom E_E] is positive at every latitude. *)
Lemma radicand_pos (a : R) : 0 < 1.0 - 0.081819221456 ^ 2 * sin a ^ 2.
Proof.
  pose proof (SIN_bound a) as [Hl Hu].
  assert (Hs : sin a ^ 2 <= 1) by nra.
  assert (Hs0 : 0 <= sin a ^ 2) by nra.
  nra.
Qed.

Lemma denom_at_pos (a : R) : 0 < denom_at a.
Proof. apply sqrt_lt_R0, radicand_pos. Qed.

Lemma calc_denom_fin (a : R) :
  calc_denom E_E (Fin a) = Ok (Fin (denom_at a)).
Proof.
  unfold calc_denom, E_E. simpl.
  apply math_sqrt_nonneg. left. apply radicand_pos.
Qed.

Lemma calc_denom_nan : calc_denom E_E NaN = Ok NaN.
Proof. reflexivity. Qed.

(** ** One pass of the latitude loop *)

Lemma loop_body_fin (z r a : R) (prev c : pyfloat) (n : nat) :
  r <> 0 ->
  loop_body (Fin z) (Fin r) (mk_lat_state (Fin a) prev c n)
  = Ok (mk_lat_state (Fin (atan (next_tan z r a))) (Fin a)
          (Fin (6378.137 / denom_at a)) (n + 1)).
Proof.
  intros Hr. unfold loop_body. cbn [o_lat_rad count].
  rewrite calc_denom_fin. cbn [bind].
  unfold R_E_KM. rewrite fdiv_nonzero
    by (pose proof (denom_at_pos a); lra).
  cbn [bind lift1 lift2 fadd fmul fsquare math_sin E_E].
  rewrite fdiv_nonzero by exact Hr. reflexivity.
Qed.

(** A pass raises exactly when the planar radius is zero; otherwise it
    moves the latitude to [prev_lat_rad] and counts one more. *)
Lemma loop_body_cases (o_z_km r_lon_km : pyfloat) (st : lat_state) :
  (r_lon_km = Fin 0 /\
   loop_body o_z_km r_lon_km st = Raise ZeroDivisionError)
  \/
  (r_lon_km <> Fin 0 /\
   exists lat c,
     loop_body o_z_km r_lon_km st
     = Ok (mk_lat_state lat (o_lat_rad st) c (count st + 1))).
Proof.
  assert (Hc : exists c, (denom <- calc_denom E_E (o_lat_rad st) ;;
                          fdiv R_E_KM denom) = Ok c).
  { destruct (o_lat_rad st) as [a | ].
    - rewrite calc_denom_fin. cbn [bind]. apply fdiv_not_zero.
      intros H. injection H as H. pose proof (denom_at_pos a). lra.
    - rewrite calc_denom_nan. cbn [bind]. apply fdiv_not_zero. discriminate. }
  destruct Hc as [c Hc].
  assert (Hbody : loop_body o_z_km r_lon_km st =
                  (q <- fdiv (fadd o_z_km (fmul (fmul c (fsquare E_E))
                                (math_sin (o_lat_rad st)))) r_lon_km ;;
                   Ok (mk_lat_state (math_atan q) (o_lat_rad st) c
                         (count st + 1)))).
  { unfold loop_body.
    destruct (calc_denom E_E (o_lat_rad st)) as [d | e | ]; cbn [bind] in *;
      try discriminate.
    rewrite Hc. reflexivity. }
  destruct r_lon_km as [y | ].
  - destruct (Req_dec_T y 0) as [-> | Hy].
    + left. split; [reflexivity | ].
      rewrite Hbody, fdiv_zero. reflexivity.
    + right. split; [intros H; injection H as H; contradiction | ].
      rewrite Hbody, fdiv_nonzero by exact Hy. cbn [bind]. eauto.
  - right. split; [discriminate | ].
    rewrite Hbody. cbn [bind fdiv]. eauto.
Qed.

(** ** The loop *)

Lemma loop_guard_count (st : lat_state) :
  loop_guard st = true -> (count st < 5)%nat.
Proof.
  unfold loop_guard. intros H. apply andb_prop in H as [_ H].
  now apply Nat.ltb_lt in H.
Qed.


(** Leaving the loop before the fifth pass means the last two latitudes
    are numbers no further apart than the tolerance, unless the new one
    is NaN next to a numeric previous one. *)
Lemma loop_guard_false_inv (st : lat_state) :
  loop_guard st = false ->
  (5 <= count st)%nat \/
  exists b, prev_lat_rad st = Fin b /\
    (o_lat_rad st = NaN \/
     exists a, o_lat_rad st = Fin a /\ Rabs (a - b) <= 1 / 1000000).
Proof.
  unfold loop_guard. rewrite andb_false_iff, orb_false_iff, Nat.ltb_ge.
  intros [[Hnan Hgt] | Hc]; [ | now left]. right.
  destruct (prev_lat_rad st) as [b | ]; [ | discriminate].
  exists b; split; [reflexivity | ].
  destruct (o_lat_rad st) as [a | ]; [ | now left]. right.
  exists a; split; [reflexivity | ].
  simpl in Hgt. destruct (Rlt_dec 10e-7 (Rabs (a - b))); [discriminate | lra].
Qed.


(** On numeric latitudes, with a non-zero planar radius, no pass raises:
    the loop returns, and any property the passes keep holds at the end. *)
Lemma lat_loop_fin (z r : R) (P : R -> Prop) :
  r <> 0 ->
  (forall a, P a -> P (atan (next_tan z r a))) ->
  forall fuel st a,
    o_lat_rad st = Fin a -> P a -> (5 <= fuel + count st)%nat ->
    exists st' a',
      lat_loop fuel (Fin z) (Fin r) st = Ok st' /\
      o_lat_rad st' = Fin a' /\ P a' /\
      loop_guard st' = false /\
      (count st <= count st')%nat /\
      ((count st' <= 5)%nat \/ st' = st) /\
      (st' = st \/ exists b, prev_lat_rad st' = Fin b).
Proof.
  intros Hr Hstep.
  induction fuel as [ | fuel IH]; intros st a Hlat HP Hfuel.
  - simpl. destruct (loop_guard st) eqn:Hg.
    + apply loop_guard_count in Hg. lia.
    + exists st, a. repeat split; auto.
  - simpl. destruct (loop_guard st) eqn:Hg.
    + pose proof (loop_guard_count st Hg) as Hlt.
      destruct st as [lat prev c k]. simpl in Hlat, Hlt, Hfuel. subst lat.
      rewrite loop_body_fin by exact Hr. cbn [bind].
      destruct (IH (mk_lat_state (Fin (atan (next_tan z r a))) (Fin a)
                      (Fin (6378.137 / denom_at a)) (k + 1))
                   (atan (next_tan z r a)))
        as [st' [a' [Hrun [Hlat' [HP' [Hg' [Hcnt [Hcap Hprev]]]]]]]];
        [reflexivity | now apply Hstep | simpl; lia | ].
      exists st', a'. simpl in Hcnt. simpl.
      split; [exact Hrun | ]. split; [exact Hlat' | ]. split; [exact HP' | ].
      split; [exact Hg' | ]. split; [lia | ].
      split.
      * destruct Hcap as [Hcap | ->]; left; [exact Hcap | simpl; lia].
      * right. destruct Hprev as [-> | Hprev]; [now exists a | exact Hprev].
    + exists st, a. repeat split; auto.
Qed.

(** When the latitude and its predecessor are both NaN the test keeps
    passing, every pass leaves them NaN, and the loop stops at the cap. *)
Lemma loop_body_nan (o_z_km r_lon_km c : pyfloat) (k : nat) :
  r_lon_km <> Fin 0 ->
  loop_body o_z_km r_lon_km (mk_lat_state NaN NaN c k)
  = Ok (mk_lat_state NaN NaN NaN (k + 1)).
Proof.
  intros Hr. unfold loop_body. cbn [o_lat_rad count].
  rewrite calc_denom_nan. cbn [bind fdiv R_E_KM].
  replace (fadd o_z_km (fmul (fmul NaN (fsquare E_E)) (math_sin NaN)))
    with NaN by (destruct o_z_km; reflexivity).
  destruct r_lon_km as [y | ].
  - rewrite fdiv_nonzero; [reflexivity | ]. intros ->. now apply Hr.
  - reflexivity.
Qed.

Lemma lat_loop_nan (o_z_km r_lon_km : pyfloat) :
  r_lon_km <> Fin 0 ->
  forall fuel c k, (k < 5)%nat -> (5 <= fuel + k)%nat ->
    lat_loop fuel o_z_km r_lon_km (mk_lat_state NaN NaN c k)
    = Ok (mk_lat_state NaN NaN NaN 5).
Proof.
  intros Hr. induction fuel as [ | fuel IH]; intros c k Hk Hfuel; [lia | ].
  assert (Hg : loop_guard (mk_lat_state NaN NaN c k) = true).
  { unfold loop_guard. simpl. now apply Nat.ltb_lt. }
  simpl lat_loop. rewrite Hg. rewrite loop_body_nan by exact Hr. cbn [bind].
  destruct (Nat.eq_dec (k + 1) 5) as [E5 | N5].
  - rewrite E5. destruct fuel; reflexivity.
  - apply IH; lia.
Qed.

(** ** Lines 90 to 94 *)

Lemma sum_squares_zero (x y : R) : x ^ 2 + y ^ 2 = 0 -> x = 0 /\ y = 0.
Proof. intros H. split; nra. Qed.

Lemma planar_radius_fin (x y : R) :
  math_sqrt (fadd (fsquare (Fin x)) (fsquare (Fin y)))
  = Ok (Fin (sqrt (x ^ 2 + y ^ 2))).
Proof. simpl. apply math_sqrt_nonneg. nra. Qed.

Lemma planar_radius_nonzero (x y : R) :
  ~ (x = 0 /\ y = 0) -> sqrt (x ^ 2 + y ^ 2) <> 0.
Proof.
  intros Hxy H. apply sqrt_eq_0 in H; [ | nra].
  apply Hxy. now apply sum_squares_zero.
Qed.

Lemma sin_lat0_range (x y z : R) :
  ~ (x = 0 /\ y = 0 /\ z = 0) -> -1 <= sin_lat0 x y z <= 1.
Proof.
  intros Hne. unfold sin_lat0.
  set (n := sqrt (x ^ 2 + y ^ 2 + z ^ 2)).
  assert (Hn0 : 0 <= n) by apply sqrt_pos.
  assert (Hn2 : n * n = x ^ 2 + y ^ 2 + z ^ 2) by (apply sqrt_sqrt; nra).
  assert (Hpos : 0 < n).
  { destruct Hn0 as [H | H]; [exact H | ]. exfalso. apply Hne.
    rewrite <- H in Hn2. repeat split; nra. }
  assert (Hz : - n <= z <= n) by (split; nra).
  split.
  - apply Rmult_le_reg_r with n; [exact Hpos | ].
    unfold Rdiv. rewrite Rmult_assoc, Rinv_l by lra. lra.
  - apply Rmult_le_reg_r with n; [exact Hpos | ].
    unfold Rdiv. rewrite Rmult_assoc, Rinv_l by lra. lra.
Qed.

Lemma initial_state_fin (x y z : R) :
  ~ (x = 0 /\ y = 0 /\ z = 0) ->
  initial_state (Fin x) (Fin y) (Fin z)
  = Ok (mk_lat_state (Fin (asin (sin_lat0 x y z))) NaN NaN 0).
Proof.
  intros Hne. unfold initial_state.
  cbn [fsquare fadd lift1 lift2].
  rewrite math_sqrt_nonneg by nra. cbn [bind].
  rewrite fdiv_nonzero.
  - cbn [bind lift1]. fold (sin_lat0 x y z).
    rewrite math_asin_in_domain by (now apply sin_lat0_range). reflexivity.
  - intros H. apply sqrt_eq_0 in H; [ | nra]. apply Hne. repeat split; nra.
Qed.

Lemma initial_state_zero :
  initial_state (Fin 0) (Fin 0) (Fin 0) = Raise ZeroDivisionError.
Proof.
  unfold initial_state. cbn [fsquare fadd lift1 lift2].
  rewrite math_sqrt_nonneg by lra. cbn [bind].
  replace (0 ^ 2 + 0 ^ 2 + 0 ^ 2) with 0 by ring.
  rewrite sqrt_0, fdiv_zero. reflexivity.
Qed.

Lemma initial_state_nan (o_x_km o_y_km o_z_km : pyfloat) :
  o_x_km = NaN \/ o_y_km = NaN \/ o_z_km = NaN ->
  initial_state o_x_km o_y_km o_z_km = Ok (mk_lat_state NaN NaN NaN 0).
Proof.
  intros H. unfold initial_state.
  assert (Hs : fadd (fadd (fsquare o_x_km) (fsquare o_y_km)) (fsquare o_z_km)
               = NaN).
  { destruct H as [-> | [-> | ->]];
      [ | destruct o_x_km | destruct o_x_km, o_y_km]; reflexivity. }
  rewrite Hs. reflexivity.
Qed.

Lemma first_pass (fuel : nat) (o_z_km r_lon_km lat0 : pyfloat) :
  lat_loop (S fuel) o_z_km r_lon_km (mk_lat_state lat0 NaN NaN 0)
  = (st' <- loop_body o_z_km r_lon_km (mk_lat_state lat0 NaN NaN 0) ;;
     lat_loop fuel o_z_km r_lon_km st').
Proof. reflexivity. Qed.

(** The solve of a numeric origin off the polar axis returns, after one
    to five passes, a latitude that is an arctangent, and any property
    the passes establish and keep holds of it. *)
Lemma geodetic_solve_fin (x y z : R) (n : nat) (P : R -> Prop) :
  ~ (x = 0 /\ y = 0) ->
  P (atan (next_tan z (sqrt (x ^ 2 + y ^ 2)) (asin (sin_lat0 x y z)))) ->
  (forall a, P a -> P (atan (next_tan z (sqrt (x ^ 2 + y ^ 2)) a))) ->
  exists st a b,
    geodetic_solve (5 + n) (Fin x) (Fin y) (Fin z)
    = Ok (st, Fin (atan2 y x)) /\
    o_lat_rad st = Fin a /\ P a /\ prev_lat_rad st = Fin b /\
    (1 <= count st <= 5)%nat /\ loop_guard st = false.
Proof.
  intros Hxy H1 Hstep. unfold geodetic_solve.
  rewrite initial_state_fin by tauto. cbn [bind].
  rewrite planar_radius_fin. cbn [bind].
  pose proof (planar_radius_nonzero x y Hxy) as Hr.
  change (5 + n)%nat with (S (4 + n)). rewrite first_pass.
  rewrite loop_body_fin by exact Hr. cbn [bind].
  set (st1 := mk_lat_state _ _ _ _).
  destruct (lat_loop_fin z (sqrt (x ^ 2 + y ^ 2)) P Hr Hstep (4 + n)%nat st1
              (atan (next_tan z (sqrt (x ^ 2 + y ^ 2)) (asin (sin_lat0 x y z)))))
    as [st' [a' [Hrun [Hlat' [HP' [Hg' [Hcnt [Hcap Hprev]]]]]]]];
    [reflexivity | exact H1 | simpl; lia | ].
  rewrite Hrun. cbn [bind].
  assert (Hb : exists b, prev_lat_rad st' = Fin b).
  { destruct Hprev as [-> | Hb]; [ | exact Hb]. simpl. eauto. }
  destruct Hb as [b Hb].
  exists st', a', b. simpl in Hcnt.
  repeat split; auto; try lia.
  destruct Hcap as [Hcap | ->]; [exact Hcap | simpl; lia].
Qed.

(** ** The two matrix products of the transform *)

Lemma fmatmul_3x3_3x1 (a00 a01 a02 a10 a11 a12 a20 a21 a22 v0 v1 v2 : pyfloat) :
  fmatmul [ [a00; a01; a02]; [a10; a11; a12]; [a20; a21; a22] ]
          [ [v0]; [v1]; [v2] ]
  = Ok [ [row_times a00 a01 a02 v0 v1 v2];
         [row_times a10 a11 a12 v0 v1 v2];
         [row_times a20 a21 a22 v0 v1 v2] ].
Proof. reflexivity. Qed.

Lemma fmatmul_3x3_3x3
  (a00 a01 a02 a10 a11 a12 a20 a21 a22 : pyfloat)
  (b00 b01 b02 b10 b11 b12 b20 b21 b22 : pyfloat) :
  fmatmul [ [a00; a01; a02]; [a10; a11; a12]; [a20; a21; a22] ]
          [ [b00; b01; b02]; [b10; b11; b12]; [b20; b21; b22] ]
  = Ok [ [row_times a00 a01 a02 b00 b10 b20;
          row_times a00 a01 a02 b01 b11 b21;
          row_times a00 a01 a02 b02 b12 b22];
         [row_times a10 a11 a12 b00 b10 b20;
          row_times a10 a11 a12 b01 b11 b21;
          row_times a10 a11 a12 b02 b12 b22];
         [row_times a20 a21 a22 b00 b10 b20;
          row_times a20 a21 a22 b01 b11 b21;
          row_times a20 a21 a22 b02 b12 b22] ].
Proof. reflexivity. Qed.

Lemma sez_transform_value (lat lon o_x_km o_y_km o_z_km x_km y_km z_km : pyfloat) :
  sez_transform lat lon o_x_km o_y_km o_z_km x_km y_km z_km
  = Ok (let '(s, e, z) :=
          sez_components lat lon (fsub x_km o_x_km) (fsub y_km o_y_km)
            (fsub z_km o_z_km) in
        [ [s]; [e]; [z] ]).
Proof. reflexivity. Qed.

Lemma printed_transform (lat lon o_x_km o_y_km o_z_km x_km y_km z_km : pyfloat) :
  (r_sez <- sez_transform lat lon o_x_km o_y_km o_z_km x_km y_km z_km ;;
   printed r_sez)
  = Ok (sez_components lat lon (fsub x_km o_x_km) (fsub y_km o_y_km)
          (fsub z_km o_z_km)).
Proof. reflexivity. Qed.

Lemma main_unfold (fuel : nat) (o_x_km o_y_km o_z_km x_km y_km z_km : pyfloat) :
  main fuel o_x_km o_y_km o_z_km x_km y_km z_km
  = (geo <- geodetic_solve fuel o_x_km o_y_km o_z_km ;;
     Ok (sez_components (o_lat_rad (fst geo)) (snd geo)
           (fsub x_km o_x_km) (fsub y_km o_y_km) (fsub z_km o_z_km))).
Proof. reflexivity. Qed.

(** A NaN in the relative vector reaches every entry of both products,
    because each entry multiplies every component, by zero if need be. *)
Lemma sez_components_nan (lat lon dx dy dz : pyfloat) :
  dx = NaN \/ dy = NaN \/ dz = NaN ->
  sez_components lat lon dx dy dz = (NaN, NaN, NaN).
Proof.
  intros [-> | [-> | ->]]; destruct lat, lon;
    try destruct dx; try destruct dy; try destruct dz; reflexivity.
Qed.

(** On numbers the components are the familiar expressions. *)
Lemma sez_components_fin (lat lon dx dy dz : R) :
  sez_components (Fin lat) (Fin lon) (Fin dx) (Fin dy) (Fin dz)
  = (Fin (sin lat * (cos lon * dx + sin lon * dy) - cos lat * dz),
     Fin (- sin lon * dx + cos lon * dy),
     Fin (cos lat * (cos lon * dx + sin lon * dy) + sin lat * dz)).
Proof.
  unfold sez_components, row_times. simpl.
  f_equal; [f_equal | ]; apply (f_equal Fin); ring.
Qed.

Lemma row_times_dot (a b c v0 v1 v2 : pyfloat) :
  row_times a b c v0 v1 v2 = dot [a; b; c] [v0; v1; v2].
Proof.
  unfold row_times, dot.
  destruct a, b, c, v0, v1, v2; simpl; try reflexivity.
  apply (f_equal Fin). ring.
Qed.

(** ** matrix_multiply and the transform *)

(** C10.  When either argument of [matrix_multiply] is the empty list, the
    call fails with [IndexError], raised by the read of the first row that
    precedes the dimension test; the dimension message is not produced. *)
Theorem matrix_multiply_empty_argument :
  forall (E : Type) (zero : E) (add mul : E -> E -> E) (A B : matrix E),
    A = [] \/ B = [] ->
    matrix_multiply zero add mul A B = Raise IndexError /\
    matrix_multiply zero add mul A B <> Raise (ValueError dimension_message).
Proof.
  intros E zero add mul A B H.
  assert (Hidx : matrix_multiply zero add mul A B = Raise IndexError).
  { unfold matrix_multiply. destruct H as [-> | ->].
    - reflexivity.
    - destruct A as [ | first1 A']; reflexivity. }
  split; [exact Hidx | ]. rewrite Hidx. discriminate.
Qed.

Lemma matrix_multiply_empty_argument_witness :
  (@nil (list nat) = [] \/ [[1%nat]] = []) /\
  matrix_multiply 0%nat Nat.add Nat.mul [] [[1%nat]] = Raise IndexError.
Proof.
  split; [left; reflexivity | ].
  apply (matrix_multiply_empty_argument nat 0%nat Nat.add Nat.mul [] [[1%nat]]).
  left; reflexivity.
Defined.

(** C6.  On an m x n and an n' x p matrix (rectangular, with at least one
    row each) [matrix_multiply] raises the dimension error exactly when
    n differs from n'; when they agree it returns a matrix of shape
    m x p.  The two products of the transform, 3x3 by 3x1, always return,
    with a 3x1 result. *)
Theorem matrix_multiply_dimension_check :
  forall (E : Type) (zero : E) (add mul : E -> E -> E)
         (A B : matrix E) (m n n' p : nat),
    shape A m n -> shape B n' p -> (0 < m)%nat -> (0 < n')%nat ->
    (matrix_multiply zero add mul A B = Raise (ValueError dimension_message)
     <-> n <> n') /\
    (n = n' ->
     exists C, matrix_multiply zero add mul A B = Ok C /\ shape C m p) /\
    (forall lat lon o_x_km o_y_km o_z_km x_km y_km z_km : pyfloat,
       exists inner r_sez,
         fmatmul (Rzinv lon)
           [ [fsub x_km o_x_km]; [fsub y_km o_y_km]; [fsub z_km o_z_km] ]
         = Ok inner /\ shape inner 3 1 /\
         fmatmul (Ryinv lat) inner = Ok r_sez /\ shape r_sez 3 1 /\
         sez_transform lat lon o_x_km o_y_km o_z_km x_km y_km z_km = Ok r_sez).
Proof.
  intros E zero add mul A B m n n' p HA HB Hm Hn'.
  split; [ | split].
  - split.
    + intros Hraise Heq. subst n'.
      destruct (matrix_multiply_compatible E zero add mul A B m n p HA HB Hm Hn')
        as [C [HC _]].
      rewrite HC in Hraise. discriminate.
    + intros Hne. now apply (matrix_multiply_mismatch E zero add mul A B m n n' p).
  - intros Heq. subst n'.
    now apply (matrix_multiply_compatible E zero add mul A B m n p).
  - intros lat lon o_x_km o_y_km o_z_km x_km y_km z_km.
    assert (H31 : forall a b c : pyfloat, shape [ [a]; [b]; [c] ] 3 1).
    { intros a b c. split; [reflexivity | ]. repeat constructor. }
    eexists. eexists.
    split; [apply fmatmul_3x3_3x1 | ]. split; [apply H31 | ].
    split; [apply fmatmul_3x3_3x1 | ]. split; [apply H31 | ].
    reflexivity.
Qed.

Lemma matrix_multiply_dimension_check_witness :
  exists C,
    matrix_multiply 0%nat Nat.add Nat.mul [[1; 2]; [3; 4]]%nat [[5]; [6]]%nat
    = Ok C /\ shape C 2 1.
Proof.
  assert (HA : shape [[1; 2]; [3; 4]]%nat 2 2)
    by (split; [reflexivity | repeat constructor]).
  assert (HB : shape [[5]; [6]]%nat 2 1)
    by (split; [reflexivity | repeat constructor]).
  apply (matrix_multiply_dimension_check nat 0%nat Nat.add Nat.mul
           [[1; 2]; [3; 4]]%nat [[5]; [6]]%nat 2 2 2 1 HA HB);
    [lia | lia | reflexivity].
Defined.

(** C3.  The transform is [Ry^-1 (Rz^-1 (target - origin))], the
    longitude rotation first and the latitude rotation second, with the
    rows the specification gives; the printed S, E and Z are entries 0, 1
    and 2 of that vector, at the latitude and longitude of the solve. *)
Theorem sez_is_two_rotations :
  forall (fuel : nat) (lat lon o_x_km o_y_km o_z_km x_km y_km z_km : pyfloat),
    Ryinv lat = Ry_inverse_rows lat /\
    Rzinv lon = Rz_inverse_rows lon /\
    sez_transform lat lon o_x_km o_y_km o_z_km x_km y_km z_km
    = Ok (map (fun c => [c])
            (sez_by_rotations lat lon o_x_km o_y_km o_z_km x_km y_km z_km)) /\
    main fuel o_x_km o_y_km o_z_km x_km y_km z_km
    = (geo <- geodetic_solve fuel o_x_km o_y_km o_z_km ;;
       let v := sez_by_rotations (o_lat_rad (fst geo)) (snd geo)
                  o_x_km o_y_km o_z_km x_km y_km z_km in
       Ok (nth 0 v NaN, nth 1 v NaN, nth 2 v NaN)).
Proof.
  intros fuel lat lon o_x_km o_y_km o_z_km x_km y_km z_km.
  assert (Hrot : forall la lo,
            sez_by_rotations la lo o_x_km o_y_km o_z_km x_km y_km z_km
            = let '(s, e, z) :=
                sez_components la lo (fsub x_km o_x_km) (fsub y_km o_y_km)
                  (fsub z_km o_z_km) in [s; e; z]).
  { intros la lo.
    unfold sez_by_rotations, apply_matrix, Ry_inverse_rows, Rz_inverse_rows.
    cbn [map]. rewrite <- !row_times_dot. reflexivity. }
  split; [reflexivity | ]. split; [reflexivity | ]. split.
  - rewrite sez_transform_value, Hrot.
    destruct (sez_components lat lon _ _ _) as [[s e] z]. reflexivity.
  - rewrite main_unfold.
    destruct (geodetic_solve fuel o_x_km o_y_km o_z_km) as [geo | e | ];
      try reflexivity.
    cbn [bind]. rewrite Hrot.
    destruct (sez_components _ _ _ _ _) as [[s e] z]. reflexivity.
Qed.

(** C7.  With the target at the origin the transform returns the zero
    vector, at every latitude and longitude. *)
Theorem sez_of_origin_is_zero :
  forall lat lon x y z : R,
    sez_transform (Fin lat) (Fin lon) (Fin x) (Fin y) (Fin z)
      (Fin x) (Fin y) (Fin z)
    = Ok [ [Fin 0]; [Fin 0]; [Fin 0] ] /\
    (r_sez <- sez_transform (Fin lat) (Fin lon) (Fin x) (Fin y) (Fin z)
                (Fin x) (Fin y) (Fin z) ;;
     printed r_sez) = Ok (Fin 0, Fin 0, Fin 0).
Proof.
  intros lat lon x y z.
  assert (H : sez_components (Fin lat) (Fin lon) (fsub (Fin x) (Fin x))
                (fsub (Fin y) (Fin y)) (fsub (Fin z) (Fin z))
              = (Fin 0, Fin 0, Fin 0)).
  { cbn [fsub lift2]. rewrite sez_components_fin.
    f_equal; [f_equal | ]; apply (f_equal Fin); ring. }
  split.
  - rewrite sez_transform_value, H. reflexivity.
  - rewrite printed_transform, H. reflexivity.
Qed.

(** C8.  At every numeric latitude and longitude the transpose of each
    rotation matrix times the matrix is the identity. *)
Theorem rotations_orthogonal :
  forall lat lon : R,
    fmatmul (transpose (Ryinv (Fin lat))) (Ryinv (Fin lat)) = Ok identity3 /\
    fmatmul (transpose (Rzinv (Fin lon))) (Rzinv (Fin lon)) = Ok identity3.
Proof.
  intros lat lon.
  pose proof (sin2_cos2 lat) as Hlat. pose proof (sin2_cos2 lon) as Hlon.
  unfold Rsqr in Hlat, Hlon.
  split; unfold transpose, Ryinv, Rzinv, identity3; cbn [hd length seq map nth];
    rewrite fmatmul_3x3_3x3; unfold row_times; simpl;
    repeat first [ apply (f_equal Fin); nra
                 | apply f_equal2
                 | apply (f_equal (@Ok (matrix pyfloat)))
                 | reflexivity ].
Qed.

(** ** The solve on and off the polar axis *)


Lemma first_pass_on_axis (fuel : nat) (o_z_km lat0 : pyfloat) :
  lat_loop (S fuel) o_z_km (Fin 0) (mk_lat_state lat0 NaN NaN 0)
  = Raise ZeroDivisionError.
Proof.
  rewrite first_pass.
  destruct (loop_body_cases o_z_km (Fin 0) (mk_lat_state lat0 NaN NaN 0))
    as [[_ ->] | [Hne _]]; [reflexivity | now contradiction Hne].
Qed.

(** An origin with [x = y = 0] makes the script raise: at the centre in
    the initial estimate, elsewhere on the axis in the first pass. *)
Lemma geodetic_solve_on_axis (n : nat) (o_z_km : pyfloat) :
  geodetic_solve (5 + n) (Fin 0) (Fin 0) o_z_km = Raise ZeroDivisionError.
Proof.
  unfold geodetic_solve.
  assert (Hr : math_sqrt (fadd (fsquare (Fin 0)) (fsquare (Fin 0)))
               = Ok (Fin 0)).
  { rewrite planar_radius_fin. replace (0 ^ 2 + 0 ^ 2) with 0 by ring.
    now rewrite sqrt_0. }
  destruct o_z_km as [z | ].
  - destruct (Req_dec_T z 0) as [-> | Hz].
    + rewrite initial_state_zero. reflexivity.
    + rewrite initial_state_fin by tauto. cbn [bind]. rewrite Hr. cbn [bind].
      change (5 + n)%nat with (S (4 + n)). rewrite first_pass_on_axis.
      reflexivity.
  - rewrite initial_state_nan by tauto. cbn [bind]. rewrite Hr. cbn [bind].
    change (5 + n)%nat with (S (4 + n)). rewrite first_pass_on_axis.
    reflexivity.
Qed.

(** With a NaN in the origin and [x], [y] not both zero, the solve runs
    its five passes on NaN. *)
Lemma geodetic_solve_nan (n : nat) (o_x_km o_y_km o_z_km : pyfloat) :
  o_x_km = NaN \/ o_y_km = NaN \/ o_z_km = NaN ->
  ~ (o_x_km = Fin 0 /\ o_y_km = Fin 0) ->
  geodetic_solve (5 + n) o_x_km o_y_km o_z_km
  = Ok (mk_lat_state NaN NaN NaN 5, math_atan2 o_y_km o_x_km).
Proof.
  intros Hnan Haxis. unfold geodetic_solve.
  rewrite initial_state_nan by exact Hnan. cbn [bind].
  assert (Hr : exists r, math_sqrt (fadd (fsquare o_x_km) (fsquare o_y_km))
                         = Ok r /\ r <> Fin 0).
  { destruct o_x_km as [x | ]; [destruct o_y_km as [y | ] | ].
    - exists (Fin (sqrt (x ^ 2 + y ^ 2))). split; [apply planar_radius_fin | ].
      intros H. injection H as H. revert H. apply planar_radius_nonzero.
      intros [-> ->]. now apply Haxis.
    - exists NaN. split; [reflexivity | discriminate].
    - exists NaN. split; [reflexivity | discriminate]. }
  destruct Hr as [r [-> Hr]]. cbn [bind].
  rewrite lat_loop_nan by (exact Hr || lia). reflexivity.
Qed.

(** ** The range of atan2 *)





(** ** Origins at the centre and inputs with NaN *)

Lemma main_on_axis (n : nat) (o_z_km x_km y_km z_km : pyfloat) :
  main (5 + n) (Fin 0) (Fin 0) o_z_km x_km y_km z_km = Raise ZeroDivisionError.
Proof. rewrite main_unfold, geodetic_solve_on_axis. reflexivity. Qed.

Lemma main_at_centre (fuel : nat) (x_km y_km z_km : pyfloat) :
  main fuel (Fin 0) (Fin 0) (Fin 0) x_km y_km z_km = Raise ZeroDivisionError.
Proof.
  rewrite main_unfold. unfold geodetic_solve.
  rewrite initial_state_zero. reflexivity.
Qed.

(** Off the polar axis the solve returns. *)
Lemma geodetic_solve_returns (n : nat) (o_x_km o_y_km o_z_km : pyfloat) :
  ~ (o_x_km = Fin 0 /\ o_y_km = Fin 0) ->
  exists geo, geodetic_solve (5 + n) o_x_km o_y_km o_z_km = Ok geo.
Proof.
  intros Haxis.
  destruct o_x_km as [x | ];
    [ | eexists; apply geodetic_solve_nan; [tauto | exact Haxis]].
  destruct o_y_km as [y | ];
    [ | eexists; apply geodetic_solve_nan; [tauto | exact Haxis]].
  destruct o_z_km as [z | ];
    [ | eexists; apply geodetic_solve_nan; [tauto | exact Haxis]].
  assert (Hxy : ~ (x = 0 /\ y = 0)).
  { intros [-> ->]. now apply Haxis. }
  destruct (geodetic_solve_fin x y z n (fun _ => True) Hxy I (fun _ _ => I))
    as [st [a [b [Hsolve _]]]].
  eexists. exact Hsolve.
Qed.

Lemma relative_vector_nan (o_x_km o_y_km o_z_km x_km y_km z_km : pyfloat) :
  o_x_km = NaN \/ o_y_km = NaN \/ o_z_km = NaN \/
  x_km = NaN \/ y_km = NaN \/ z_km = NaN ->
  fsub x_km o_x_km = NaN \/ fsub y_km o_y_km = NaN \/ fsub z_km o_z_km = NaN.
Proof.
  intros [-> | [-> | [-> | [-> | [-> | ->]]]]].
  - left. destruct x_km; reflexivity.
  - right; left. destruct y_km; reflexivity.
  - right; right. destruct z_km; reflexivity.
  - left. reflexivity.
  - right; left. reflexivity.
  - right; right. reflexivity.
Qed.

(** C2, as the code has it.  With the origin at the centre the longitude
    is [atan2(0, 0) = 0], not NaN, and the initial latitude estimate
    divides by a zero norm: the script raises [ZeroDivisionError] and
    prints nothing, whatever the target and the fuel. *)
Theorem zero_origin_raises :
  forall (fuel : nat) (x_km y_km z_km : pyfloat),
    math_atan2 (Fin 0) (Fin 0) = Fin 0 /\
    initial_state (Fin 0) (Fin 0) (Fin 0) = Raise ZeroDivisionError /\
    geodetic_solve fuel (Fin 0) (Fin 0) (Fin 0) = Raise ZeroDivisionError /\
    main fuel (Fin 0) (Fin 0) (Fin 0) x_km y_km z_km = Raise ZeroDivisionError.
Proof.
  intros fuel x_km y_km z_km.
  split; [ | split; [ | split]].
  - simpl. unfold atan2.
    destruct (Rlt_dec 0 0) as [H | _]; [lra | ]. reflexivity.
  - apply initial_state_zero.
  - unfold geodetic_solve. rewrite initial_state_zero. reflexivity.
  - apply main_at_centre.
Qed.

(** C2 fails as stated: at the zero origin the script does not print
    three NaN, it raises. *)
Lemma zero_origin_is_not_nan :
  main 5 (Fin 0) (Fin 0) (Fin 0) (Fin 1) (Fin 2) (Fin 3)
  = Raise ZeroDivisionError /\
  main 5 (Fin 0) (Fin 0) (Fin 0) (Fin 1) (Fin 2) (Fin 3)
  <> Ok (NaN, NaN, NaN).
Proof.
  rewrite main_at_centre. split; [reflexivity | discriminate].
Qed.

(** C9 fails as stated: a NaN height over the polar axis raises. *)
Lemma nan_on_axis_raises :
  main 5 (Fin 0) (Fin 0) NaN (Fin 1) (Fin 2) (Fin 3)
  = Raise ZeroDivisionError /\
  main 5 (Fin 0) (Fin 0) NaN (Fin 1) (Fin 2) (Fin 3) <> Ok (NaN, NaN, NaN).
Proof.
  rewrite (main_on_axis 0). split; [reflexivity | discriminate].
Qed.

(** ** Enclosures *)

Lemma sqrt_between (l h x : R) :
  0 <= l -> 0 <= h -> l * l <= x -> x <= h * h -> l <= sqrt x <= h.
Proof.
  intros Hl Hh Hlx Hxh. split.
  - rewrite <- (sqrt_square l) by exact Hl. now apply sqrt_le_1_alt.
  - rewrite <- (sqrt_square h) by exact Hh. now apply sqrt_le_1_alt.
Qed.

Lemma inv_between (l h x : R) :
  0 < l -> l <= x <= h -> / h <= / x <= / l.
Proof.
  intros Hl [Hlx Hxh]. split; apply Rinv_le_contravar; lra.
Qed.

Lemma mul_between (a b c d x y : R) :
  0 <= a -> 0 <= c -> a <= x <= b -> c <= y <= d ->
  a * c <= x * y <= b * d.
Proof.
  intros Ha Hc [Hax Hxb] [Hcy Hyd]. split; apply Rmult_le_compat; lra.
Qed.

Lemma div_between (a b c d x y : R) :
  0 <= a -> 0 < c -> a <= x <= b -> c <= y <= d ->
  a / d <= x / y <= b / c.
Proof.
  intros Ha Hc Hx Hy. unfold Rdiv.
  apply mul_between; [exact Ha | | exact Hx | now apply inv_between].
  left. apply Rinv_0_lt_compat. lra.
Qed.

(** The sine and the cosine of an arctangent, enclosed from an enclosure
    of its argument by comparing squares. *)
Lemma sin_cos_atan_between (tl th sl sh cl ch t : R) :
  0 < tl -> tl <= t <= th ->
  0 < sl -> 0 < sh -> 0 < cl -> 0 < ch ->
  sl * sl * (1 + tl * tl) <= tl * tl ->
  th * th <= sh * sh * (1 + th * th) ->
  cl * cl * (1 + th * th) <= 1 ->
  1 <= ch * ch * (1 + tl * tl) ->
  sl <= sin (atan t) <= sh /\ cl <= cos (atan t) <= ch.
Proof.
  intros Htl [Hlt Hth] Hsl Hsh Hcl Hch Esl Esh Ecl Ech.
  rewrite sin_atan, cos_atan. unfold Rsqr.
  set (w := sqrt (1 + t * t)).
  assert (Hw2 : w * w = 1 + t * t) by (apply sqrt_sqrt; nra).
  assert (Hw : 0 < w) by (apply sqrt_lt_R0; nra).
  assert (Hsl1 : sl * sl < 1) by nra.
  assert (Hsh1 : sh * sh < 1 \/ 1 <= sh * sh) by lra.
  assert (Htt : tl * tl <= t * t <= th * th) by nra.
  assert (Hslw : sl * w <= t).
  { assert (H2 : (sl * w) * (sl * w) <= t * t) by nra.
    assert (H0 : 0 <= sl * w) by nra. nra. }
  assert (Hshw : t <= sh * w).
  { assert (H2 : t * t <= (sh * w) * (sh * w)).
    { destruct Hsh1 as [Hsh1 | Hsh1]; nra. }
    assert (H0 : 0 <= sh * w) by nra. nra. }
  assert (Hclw : cl * w <= 1).
  { assert (H2 : (cl * w) * (cl * w) <= 1) by nra.
    assert (H0 : 0 <= cl * w) by nra. nra. }
  assert (Hchw : 1 <= ch * w).
  { assert (H2 : 1 <= (ch * w) * (ch * w)) by nra.
    assert (H0 : 0 <= ch * w) by nra. nra. }
  assert (Hiw : 0 < / w) by now apply Rinv_0_lt_compat.
  assert (Hwiw : w * / w = 1) by (apply Rinv_r; lra).
  unfold Rdiv. repeat split.
  - replace sl with (sl * w * / w) by (rewrite Rmult_assoc, Hwiw; ring).
    apply Rmult_le_compat_r; lra.
  - replace sh with (sh * w * / w) by (rewrite Rmult_assoc, Hwiw; ring).
    apply Rmult_le_compat_r; lra.
  - replace cl with (cl * w * / w) by (rewrite Rmult_assoc, Hwiw; ring).
    apply Rmult_le_compat_r; lra.
  - replace ch with (ch * w * / w) by (rewrite Rmult_assoc, Hwiw; ring).
    apply Rmult_le_compat_r; lra.
Qed.

(** ** The documented test vector *)

(** Origin (822.933, -4787.187, 4120.262), target (1131.698, -4479.324,
    4430.228).  The enclosures below are decimal bounds checked by
    squaring. *)

Lemma tv_radius :
  4857.4044607648 <= sqrt (822.933 ^ 2 + (-4787.187) ^ 2) <= 4857.4044607649.
Proof. apply sqrt_between; lra. Qed.

Lemma tv_sin_lat0 :
  0.6468704519 <= sin_lat0 822.933 (-4787.187) 4120.262 <= 0.646870452.
Proof.
  unfold sin_lat0.
  assert (Hn : 6369.5319328897
               <= sqrt (822.933 ^ 2 + (-4787.187) ^ 2 + 4120.262 ^ 2)
               <= 6369.5319328898) by (apply sqrt_between; lra).
  pose proof (div_between 4120.262 4120.262 6369.5319328897 6369.5319328898
                4120.262 _ ltac:(lra) ltac:(lra) ltac:(lra) Hn) as H.
  lra.
Qed.

Lemma tv_denom (a : R) :
  0.6468704519 <= sin a <= 0.6494 ->
  0.998587423 <= denom_at a <= 0.998598414.
Proof.
  intros [Hl Hh]. unfold denom_at.
  assert (Hs : 0.6468704519 * 0.6468704519 <= sin a ^ 2 <= 0.6494 * 0.6494)
    by nra.
  apply sqrt_between; lra.
Qed.

Lemma tv_next_tan (a : R) :
  0.6468704519 <= sin a <= 0.6494 ->
  0.853937
  <= next_tan 4120.262 (sqrt (822.933 ^ 2 + (-4787.187) ^ 2)) a
  <= 0.853961.
Proof.
  intros Hs. unfold next_tan.
  pose proof (tv_denom a Hs) as Hd. pose proof tv_radius as Hr.
  pose proof (div_between 6378.137 6378.137 0.998587423 0.998598414
                6378.137 (denom_at a) ltac:(lra) ltac:(lra) ltac:(lra) Hd)
    as Hq.
  set (q := 6378.137 / denom_at a) in *.
  assert (Hqe : 42.7576331586 <= q * 0.081819221456 ^ 2 <= 42.7581037726)
    by lra.
  pose proof (mul_between 42.7576331586 42.7581037726 0.6468704519 0.6494
                (q * 0.081819221456 ^ 2) (sin a)
                ltac:(lra) ltac:(lra) Hqe Hs) as Hp.
  set (p := q * 0.081819221456 ^ 2 * sin a) in *.
  pose proof (div_between 4147.9206494834 4148.02911259
                4857.4044607648 4857.4044607649 (4120.262 + p) _
                ltac:(lra) ltac:(lra) ltac:(lra) Hr) as Hv.
  lra.
Qed.

Lemma tv_sin_cos (t : R) :
  0.853937 <= t <= 0.853961 ->
  0.649384866 <= sin (atan t) <= 0.6493954204 /\
  0.7604509109 <= cos (atan t) <= 0.7604599239.
Proof.
  intros Ht.
  apply (sin_cos_atan_between 0.853937 0.853961); try exact Ht; lra.
Qed.

Lemma tv_longitude :
  atan2 (-4787.187) 822.933 = atan (-4787.187 / 822.933).
Proof.
  unfold atan2. destruct (Rlt_dec 0 822.933) as [_ | H]; [reflexivity | lra].
Qed.

Lemma tv_meridian :
  let lon := atan2 (-4787.187) 822.933 in
  -251.1021788496 <= cos lon * 308.765 + sin lon * 307.863 <= -251.1021788452
  /\
  356.4591810733 <= - sin lon * 308.765 + cos lon * 307.863 <= 356.4591810795.
Proof.
  intros lon. unfold lon. rewrite tv_longitude, sin_atan, cos_atan.
  unfold Rsqr.
  assert (Hw : 5.9025515573
               <= sqrt (1 + -4787.187 / 822.933 * (-4787.187 / 822.933))
               <= 5.9025515574) by (apply sqrt_between; lra).
  set (w := sqrt _) in *.
  pose proof (inv_between 5.9025515573 5.9025515574 w ltac:(lra) Hw) as Hi.
  unfold Rdiv. set (iw := / w) in *.
  split; split; lra.
Qed.

(** C1.  On the documented test vector the script prints S, E and Z
    within 0.01 km of -398.778, 356.458 and 10.340.  Every latitude the
    loop can stop at, after one pass or after five, has its tangent in
    [0.853937, 0.853961], and the three components stay within the
    tolerance over that whole interval. *)
Theorem test_vector_sez :
  forall n : nat,
  exists S E Z : R,
    main (5 + n) (Fin 822.933) (Fin (-4787.187)) (Fin 4120.262)
      (Fin 1131.698) (Fin (-4479.324)) (Fin 4430.228)
    = Ok (Fin S, Fin E, Fin Z) /\
    Rabs (S - -398.778) <= 0.01 /\
    Rabs (E - 356.458) <= 0.01 /\
    Rabs (Z - 10.340) <= 0.01.
Proof.
  intros n.
  destruct (geodetic_solve_fin 822.933 (-4787.187) 4120.262 n
              (fun a => exists t, a = atan t /\ 0.853937 <= t <= 0.853961))
    as [st [a [b [Hsolve [Hlat [[t [-> Ht]] _]]]]]].
  - intros [H _]. lra.
  - eexists. split; [reflexivity | ]. apply tv_next_tan.
    pose proof tv_sin_lat0 as H0. rewrite sin_asin; lra.
  - intros a [t [-> Ht]]. eexists. split; [reflexivity | ].
    apply tv_next_tan. destruct (tv_sin_cos t Ht) as [Hs _]. lra.
  - rewrite main_unfold, Hsolve. cbn [bind fst snd]. rewrite Hlat.
    cbn [fsub lift2]. rewrite sez_components_fin.
    eexists. eexists. eexists. split; [reflexivity | ].
    destruct (tv_sin_cos t Ht) as [Hs Hc].
    destruct tv_meridian as [HA HE].
    replace (1131.698 - 822.933) with 308.765 by lra.
    replace (-4479.324 - -4787.187) with 307.863 by lra.
    replace (4430.228 - 4120.262) with 309.966 by lra.
    set (lon := atan2 (-4787.187) 822.933) in *.
    set (A := cos lon * 308.765 + sin lon * 307.863) in *.
    set (s := sin (atan t)) in *. set (c := cos (atan t)) in *.
    pose proof (mul_between 0.649384866 0.6493954204
                  251.1021788452 251.1021788496 s (- A)
                  ltac:(lra) ltac:(lra) Hs ltac:(lra)) as HsA.
    pose proof (mul_between 0.7604509109 0.7604599239
                  251.1021788452 251.1021788496 c (- A)
                  ltac:(lra) ltac:(lra) Hc ltac:(lra)) as HcA.
    replace (s * - A) with (- (s * A)) in HsA by ring.
    replace (c * - A) with (- (c * A)) in HcA by ring.
    set (sA := s * A) in *. set (cA := c * A) in *.
    repeat split; apply Rabs_le; lra.
Qed.

(** * Further properties *)

Lemma bind_ok_inv {A B : Type} (m : result A) (f : A -> result B) (b : B) :
  bind m f = Ok b -> exists a, m = Ok a /\ f a = Ok b.
Proof.
  destruct m as [a | e | ]; simpl; intros H; try discriminate.
  exists a; split; [reflexivity | exact H].
Qed.

Lemma nth_error_nth_eq {A : Type} (l l' : list A) (i : nat) (d : A) :
  nth_error l i = nth_error l' i -> nth i l d = nth i l' d.
Proof.
  intros H. destruct (nth_error l i) as [a | ] eqn:Hl.
  - rewrite (nth_error_nth l i d Hl).
    symmetry in H. now rewrite (nth_error_nth l' i d H).
  - symmetry in H. apply nth_error_None in Hl, H.
    now rewrite !nth_overflow.
Qed.

(** A loop over [range(n)] whose invariant moves with the index. *)
Lemma for_each_indexed {S : Type} (P : nat -> S -> Prop)
  (body : nat -> S -> result S) (len : nat) :
  forall a,
    (forall i s, (a <= i < a + len)%nat -> P i s ->
                 exists s', body i s = Ok s' /\ P (Datatypes.S i) s') ->
    forall s, P a s ->
      exists s', for_each (seq a len) body s = Ok s' /\ P (a + len)%nat s'.
Proof.
  induction len as [ | len IH]; intros a Hbody s Hs; simpl.
  - exists s. rewrite Nat.add_0_r. split; [reflexivity | exact Hs].
  - destruct (Hbody a s) as [s1 [H1 P1]]; [lia | exact Hs | ].
    rewrite H1. simpl.
    destruct (IH (Datatypes.S a)) with (s := s1) as [s2 [H2 P2]].
    + intros i s0 Hi. apply Hbody. lia.
    + exact P1.
    + exists s2. split; [exact H2 | ].
      replace (a + Datatypes.S len)%nat with (Datatypes.S a + len)%nat by lia.
      exact P2.
Qed.

Lemma for_range_indexed {S : Type} (P : nat -> S -> Prop)
  (body : nat -> S -> result S) (n : nat) :
  (forall i s, (i < n)%nat -> P i s ->
               exists s', body i s = Ok s' /\ P (Datatypes.S i) s') ->
  forall s, P 0%nat s -> exists s', for_range n body s = Ok s' /\ P n s'.
Proof.
  intros Hbody s Hs. unfold for_range.
  destruct (for_each_indexed P body n 0%nat) with (s := s) as [s' [H1 H2]].
  - intros i s0 Hi. apply Hbody. lia.
  - exact Hs.
  - exists s'. split; [exact H1 | exact H2].
Qed.

Section Product.

Variable E : Type.
Variable zero : E.
Variables add mul : E -> E -> E.
Variables A B : matrix E.
Variables m n p : nat.
Hypothesis A_rows : length A = m.
Hypothesis A_wide : rows_reach A n.
Hypothesis B_rows : length B = n.
Hypothesis B_wide : rows_reach B p.

Lemma partial_dot_S (i j k : nat) :
  partial_dot zero add mul A B i j (S k)
  = add (partial_dot zero add mul A B i j k)
        (mul (entry zero A i k) (entry zero B k j)).
Proof.
  unfold partial_dot. rewrite seq_S, fold_left_app. reflexivity.
Qed.

Lemma reach_entry (M : matrix E) (r c i k : nat) :
  length M = r -> rows_reach M c -> (i < r)%nat -> (k < c)%nat ->
  exists row, get_item M i = Ok row /\
              get_item row k = Ok (entry zero M i k).
Proof.
  intros Hlen Hwide Hi Hk.
  destruct (get_item_lt M i) as [row [Hget Hnth]]; [lia | ].
  exists row. split; [exact Hget | ].
  assert (Hrow : (c <= length row)%nat).
  { unfold rows_reach in Hwide. rewrite Forall_forall in Hwide.
    apply Hwide. eapply nth_error_In; exact Hnth. }
  destruct (get_item_lt row k) as [a [Hga Hna]]; [lia | ].
  rewrite Hga. f_equal. unfold entry.
  rewrite (nth_error_nth M i [] Hnth).
  symmetry. now apply nth_error_nth.
Qed.

Lemma accumulate_progress (i j k : nat) (res : matrix E) :
  (i < m)%nat -> (j < p)%nat -> (k < n)%nat ->
  progress zero add mul A B m n p i j k res ->
  exists res', accumulate add mul A B i j k res = Ok res' /\
               progress zero add mul A B m n p i j (S k) res'.
Proof.
  intros Hi Hj Hk [Hshape Hent]. unfold accumulate.
  destruct (get_item_lt res i) as [row [Hrow Hnrow]];
    [destruct Hshape; lia | ].
  assert (Hlrow : length row = p).
  { destruct Hshape as [_ Hall]. rewrite Forall_forall in Hall.
    apply Hall. eapply nth_error_In; exact Hnrow. }
  rewrite Hrow. cbn [bind].
  destruct (get_item_lt row j) as [cur [Hcur Hncur]]; [lia | ].
  rewrite Hcur. cbn [bind].
  assert (Ecur : cur = partial_dot zero add mul A B i j k).
  { specialize (Hent i j Hi Hj). rewrite !Nat.eqb_refl in Hent. simpl in Hent.
    rewrite <- Hent. unfold entry.
    rewrite (nth_error_nth res i [] Hnrow).
    symmetry. now apply nth_error_nth. }
  destruct (reach_entry A m n i k A_rows A_wide Hi Hk) as [r1 [Hr1 Hea]].
  rewrite Hr1. cbn [bind]. rewrite Hea. cbn [bind].
  destruct (reach_entry B n p k j B_rows B_wide Hk Hj) as [r2 [Hr2 Heb]].
  rewrite Hr2. cbn [bind]. rewrite Heb. cbn [bind].
  destruct (set_item_lt row j
              (add cur (mul (entry zero A i k) (entry zero B k j))))
    as [row' [-> [Hlen' [Hnth' Hother']]]]; [lia | ].
  cbn [bind].
  destruct (set_item_lt res i row') as [res' [Hset [Hlres [Hnres Hores]]]];
    [destruct Hshape; lia | ].
  exists res'. split; [exact Hset | ]. split.
  - apply (shape_set_row E res res' m p i row' Hshape);
      [rewrite Hlen'; exact Hlrow | exact Hset | exact Hi].
  - intros i' j' Hi' Hj'.
    destruct (Nat.eq_dec i' i) as [-> | Hne].
    + unfold entry at 1. rewrite (nth_error_nth res' i [] Hnres).
      destruct (Nat.eq_dec j' j) as [-> | Hnej].
      * rewrite !Nat.eqb_refl. simpl.
        rewrite (nth_error_nth row' j zero Hnth').
        rewrite partial_dot_S, Ecur. reflexivity.
      * rewrite (nth_error_nth_eq row' row j' zero (Hother' j' Hnej)).
        specialize (Hent i j' Hi Hj').
        unfold entry in Hent at 1.
        rewrite (nth_error_nth res i [] Hnrow) in Hent.
        rewrite Hent.
        assert (Hb : (j' =? j)%nat = false) by now apply Nat.eqb_neq.
        rewrite Hb, !andb_false_r. reflexivity.
    + unfold entry at 1.
      rewrite (nth_error_nth_eq res' res i' [] (Hores i' Hne)).
      fold (entry zero res i' j'). rewrite (Hent i' j' Hi' Hj').
      assert (Hb : (i' =? i)%nat = false) by now apply Nat.eqb_neq.
      rewrite Hb. reflexivity.
Qed.

Lemma progress_next_column (i j : nat) (res : matrix E) :
  progress zero add mul A B m n p i j n res ->
  progress zero add mul A B m n p i (S j) 0 res.
Proof.
  intros [Hshape Hent]. split; [exact Hshape | ].
  intros i' j' Hi' Hj'. rewrite (Hent i' j' Hi' Hj').
  unfold done_before, partial_dot. index_cases.
Qed.

Lemma progress_next_row (i : nat) (res : matrix E) :
  progress zero add mul A B m n p i p 0 res ->
  progress zero add mul A B m n p (S i) 0 0 res.
Proof.
  intros [Hshape Hent]. split; [exact Hshape | ].
  intros i' j' Hi' Hj'. rewrite (Hent i' j' Hi' Hj').
  unfold done_before, partial_dot. index_cases.
Qed.

Lemma loops_progress (res : matrix E) :
  progress zero add mul A B m n p 0 0 0 res ->
  exists res',
    for_range m (fun i =>
      for_range p (fun j =>
        for_range n (fun k => accumulate add mul A B i j k))) res = Ok res'
    /\ progress zero add mul A B m n p m 0 0 res'.
Proof.
  apply for_range_indexed
    with (P := fun i r => progress zero add mul A B m n p i 0 0 r).
  intros i s Hi Hs.
  destruct (for_range_indexed
              (fun j r => progress zero add mul A B m n p i j 0 r)
              (fun j => for_range n (fun k => accumulate add mul A B i j k))
              p) with (s := s) as [s' [Hrun Hend]].
  - intros j s1 Hj Hs1.
    destruct (for_range_indexed
                (fun k r => progress zero add mul A B m n p i j k r)
                (fun k => accumulate add mul A B i j k) n)
      with (s := s1) as [s2 [Hrun2 Hend2]].
    + intros k s3 Hk Hs3. now apply accumulate_progress.
    + exact Hs1.
    + exists s2. split; [exact Hrun2 | now apply progress_next_column].
  - exact Hs.
  - exists s'. split; [exact Hrun | now apply progress_next_row].
Qed.

Lemma progress_start :
  progress zero add mul A B m n p 0 0 0 (repeat (repeat zero p) m).
Proof.
  clear A_rows A_wide B_rows B_wide.
  split; [apply shape_repeat | ].
  intros i' j' Hi' Hj'.
  assert (Hz : entry zero (repeat (repeat zero p) m) i' j' = zero).
  { unfold entry. rewrite nth_repeat_lt by exact Hi'. apply nth_repeat. }
  rewrite Hz. unfold done_before, partial_dot. index_cases.
Qed.

Lemma progress_end (res : matrix E) (i j : nat) :
  progress zero add mul A B m n p m 0 0 res ->
  (i < m)%nat -> (j < p)%nat ->
  entry zero res i j = partial_dot zero add mul A B i j n.
Proof.
  clear A_rows A_wide B_rows B_wide.
  intros [_ Hent] Hi Hj. rewrite (Hent i j Hi Hj).
  unfold done_before. index_cases.
Qed.

End Product.

(** ** What the loops of matrix_multiply can raise *)

Lemma get_item_ok_or_index {A : Type} (l : list A) (i : nat) :
  ok_or_index (get_item l i).
Proof. unfold get_item. destruct (nth_error l i); simpl; auto. Qed.

Lemma set_item_ok_or_index {A : Type} (l : list A) (i : nat) (v : A) :
  ok_or_index (set_item l i v).
Proof.
  revert i. induction l as [ | h t IH]; intros i; simpl; [reflexivity | ].
  destruct i as [ | i']; simpl; [exact I | ].
  specialize (IH i'). destruct (set_item t i' v); simpl in *; auto.
Qed.

Lemma bind_ok_or_index {A B : Type} (m : result A) (f : A -> result B) :
  ok_or_index m -> (forall a, ok_or_index (f a)) -> ok_or_index (bind m f).
Proof. destruct m; simpl; auto. Qed.

Lemma for_each_ok_or_index {S : Type} (l : list nat)
  (body : nat -> S -> result S) :
  (forall i s, ok_or_index (body i s)) ->
  forall s, ok_or_index (for_each l body s).
Proof.
  intros Hbody. induction l as [ | i l IH]; intros s; simpl; [exact I | ].
  apply bind_ok_or_index; [apply Hbody | exact IH].
Qed.

Lemma accumulate_ok_or_index {E : Type} (add mul : E -> E -> E)
  (A B : matrix E) (i j k : nat) (res : matrix E) :
  ok_or_index (accumulate add mul A B i j k res).
Proof.
  unfold accumulate.
  repeat (apply bind_ok_or_index;
          [first [apply get_item_ok_or_index | apply set_item_ok_or_index]
          | intros ?]).
  apply set_item_ok_or_index.
Qed.

(** A loop that returns has run every one of its passes to the end. *)
Lemma for_each_ok_all {S : Type} (l : list nat) (body : nat -> S -> result S) :
  forall s s', for_each l body s = Ok s' ->
  forall i, In i l -> exists s1 s2, body i s1 = Ok s2.
Proof.
  induction l as [ | a l IH]; intros s s' Hrun i Hin; [contradiction | ].
  simpl in Hrun. apply bind_ok_inv in Hrun as [s1 [Hbody Hrest]].
  destruct Hin as [<- | Hin]; [eauto | ].
  eapply IH; eauto.
Qed.

Lemma accumulate_ok_reads {E : Type} (add mul : E -> E -> E)
  (A B : matrix E) (i j k : nat) (res res' : matrix E) :
  accumulate add mul A B i j k res = Ok res' ->
  exists r1 r2, nth_error A i = Some r1 /\ (k < length r1)%nat /\
                nth_error B k = Some r2 /\ (j < length r2)%nat.
Proof.
  unfold accumulate. intros H.
  apply bind_ok_inv in H as [row [_ H]].
  apply bind_ok_inv in H as [cur [_ H]].
  apply bind_ok_inv in H as [r1 [H1 H]].
  apply bind_ok_inv in H as [a [Ha H]].
  apply bind_ok_inv in H as [r2 [H2 H]].
  apply bind_ok_inv in H as [b [Hb _]].
  unfold get_item in H1, Ha, H2, Hb.
  destruct (nth_error A i) as [r1' | ] eqn:E1; [ | discriminate].
  injection H1 as ->.
  destruct (nth_error r1 k) eqn:Ea; [ | discriminate].
  destruct (nth_error B k) as [r2' | ] eqn:E2; [ | discriminate].
  injection H2 as ->.
  destruct (nth_error r2 j) eqn:Eb; [ | discriminate].
  exists r1, r2. repeat split; try reflexivity.
  - apply nth_error_Some. congruence.
  - apply nth_error_Some. congruence.
Qed.

(** The loops compute the sums of products. *)
Lemma matrix_multiply_product :
  forall {E : Type} (zero : E) (add mul : E -> E -> E) (A B : matrix E),
    (0 < length A)%nat -> (0 < length B)%nat ->
    length (hd [] A) = length B ->
    rows_reach A (length (hd [] A)) ->
    rows_reach B (length (hd [] B)) ->
    exists C,
      matrix_multiply zero add mul A B = Ok C /\
      shape C (length A) (length (hd [] B)) /\
      forall i j, (i < length A)%nat -> (j < length (hd [] B))%nat ->
        entry zero C i j = partial_dot zero add mul A B i j (length B).
Proof.
  intros E zero add mul A B HA HB Hdim HwA HwB.
  destruct A as [ | first1 A']; [simpl in HA; lia | ].
  destruct B as [ | first2 B']; [simpl in HB; lia | ].
  cbn [hd] in *.
  unfold matrix_multiply. cbn [get_item nth_error bind].
  rewrite Hdim, Nat.eqb_refl. cbn [negb].
  rewrite <- Hdim.
  destruct (loops_progress E zero add mul (first1 :: A') (first2 :: B')
              (length (first1 :: A')) (length first1) (length first2)
              eq_refl HwA (eq_sym Hdim) HwB
              (repeat (repeat zero (length first2)) (length (first1 :: A')))
              (progress_start E zero add mul _ _ _ _ _))
    as [C [Hrun Hend]].
  exists C. split; [exact Hrun | ]. split; [exact (proj1 Hend) | ].
  intros i j Hi Hj.
  now apply (progress_end E zero add mul (first1 :: A') (first2 :: B')
               (length (first1 :: A')) (length first1) (length first2)).
Qed.

(** X1.  When no row of either matrix is shorter than its first row and
    the first row of [matrix1] is as long as [matrix2] has rows,
    [matrix_multiply] returns the matrix product: as many rows as
    [matrix1], as many columns as the first row of [matrix2], and entry
    [(i, j)] the sum, from [0] and in increasing [k], of
    [matrix1[i][k] * matrix2[k][j]].  Entries of a row beyond these
    lengths are never read. *)
Theorem matrix_multiply_entries :
  forall (E : Type) (zero : E) (add mul : E -> E -> E) (A B : matrix E),
    (0 < length A)%nat -> (0 < length B)%nat ->
    length (hd [] A) = length B ->
    rows_reach A (length (hd [] A)) ->
    rows_reach B (length (hd [] B)) ->
    exists C,
      matrix_multiply zero add mul A B = Ok C /\
      shape C (length A) (length (hd [] B)) /\
      forall i j, (i < length A)%nat -> (j < length (hd [] B))%nat ->
        entry zero C i j = partial_dot zero add mul A B i j (length B).
Proof.
  intros E zero add mul A B. apply matrix_multiply_product.
Qed.

Lemma matrix_multiply_entries_witness :
  exists C,
    matrix_multiply 0%nat Nat.add Nat.mul
      [[1; 2]; [3; 4; 5]]%nat [[1]; [1; 9]]%nat = Ok C /\
    shape C 2 1 /\
    forall i j, (i < 2)%nat -> (j < 1)%nat ->
      entry 0%nat C i j
      = partial_dot 0%nat Nat.add Nat.mul
          [[1; 2]; [3; 4; 5]]%nat [[1]; [1; 9]]%nat i j 2.
Proof.
  apply (matrix_multiply_entries nat 0%nat Nat.add Nat.mul
           [[1; 2]; [3; 4; 5]]%nat [[1]; [1; 9]]%nat).
  - simpl; lia.
  - simpl; lia.
  - reflexivity.
  - repeat constructor.
  - repeat constructor.
Defined.

(** X2.  With the dimension test passed, a row of [matrix1] shorter than
    its first row, or a row of [matrix2] shorter than its first row, makes
    [matrix_multiply] fail with [IndexError]: the loops run to the
    lengths of the first rows whatever the other rows hold. *)
Theorem matrix_multiply_short_row :
  forall (E : Type) (zero : E) (add mul : E -> E -> E) (A B : matrix E),
    (0 < length A)%nat -> (0 < length B)%nat ->
    length (hd [] A) = length B ->
    (0 < length (hd [] B))%nat ->
    (exists row, In row A /\ (length row < length (hd [] A))%nat) \/
    (exists row, In row B /\ (length row < length (hd [] B))%nat) ->
    matrix_multiply zero add mul A B = Raise IndexError.
Proof.
  intros E zero add mul A B HA HB Hdim Hp Hshort.
  destruct A as [ | first1 A']; [simpl in HA; lia | ].
  destruct B as [ | first2 B']; [simpl in HB; lia | ].
  cbn [hd] in *.
  unfold matrix_multiply. cbn [get_item nth_error bind].
  rewrite Hdim, Nat.eqb_refl. cbn [negb].
  set (body := fun i : nat => _).
  set (res0 := repeat _ _).
  assert (Hkind : ok_or_index (for_range (length (first1 :: A')) body res0)).
  { apply for_each_ok_or_index. intros i s.
    apply for_each_ok_or_index. intros j s1.
    apply for_each_ok_or_index. intros k s2.
    apply accumulate_ok_or_index. }
  destruct (for_range (length (first1 :: A')) body res0) as [C | e | ] eqn:Hrun;
    simpl in Hkind; [ | now subst e | contradiction].
  exfalso.
  assert (Hall : forall i j k,
             (i < length (first1 :: A'))%nat -> (j < length first2)%nat ->
             (k < length (first2 :: B'))%nat ->
             exists r1 r2, nth_error (first1 :: A') i = Some r1 /\
                           (k < length r1)%nat /\
                           nth_error (first2 :: B') k = Some r2 /\
                           (j < length r2)%nat).
  { intros i j k Hi Hj Hk.
    destruct (for_each_ok_all _ body _ _ Hrun i) as [s1 [s2 H1]];
      [apply in_seq; lia | ].
    unfold body, for_range in H1.
    destruct (for_each_ok_all _ _ _ _ H1 j) as [s3 [s4 H2]];
      [apply in_seq; lia | ].
    destruct (for_each_ok_all _ _ _ _ H2 k) as [s5 [s6 H3]];
      [apply in_seq; lia | ].
    now apply accumulate_ok_reads in H3. }
  destruct Hshort as [[row [Hin Hlen]] | [row [Hin Hlen]]].
  - apply In_nth_error in Hin as [i Hi].
    assert (Hilt : (i < length (first1 :: A'))%nat)
      by (apply nth_error_Some; congruence).
    destruct (Hall i 0%nat (length row) Hilt Hp ltac:(lia))
      as [r1 [r2 [H1 [Hk _]]]].
    rewrite Hi in H1. injection H1 as <-. lia.
  - apply In_nth_error in Hin as [k Hk].
    assert (Hklt : (k < length (first2 :: B'))%nat)
      by (apply nth_error_Some; congruence).
    destruct (Hall 0%nat (length row) k HA Hlen Hklt)
      as [r1 [r2 [_ [_ [H2 Hj]]]]].
    rewrite Hk in H2. injection H2 as <-. lia.
Qed.

Lemma matrix_multiply_short_row_witness :
  matrix_multiply 0%nat Nat.add Nat.mul [[1; 2]; [3]]%nat [[1]; [1]]%nat
  = Raise IndexError.
Proof.
  apply (matrix_multiply_short_row nat 0%nat Nat.add Nat.mul
           [[1; 2]; [3]]%nat [[1]; [1]]%nat).
  - simpl; lia.
  - simpl; lia.
  - reflexivity.
  - simpl; lia.
  - left. exists [3%nat]. split; [right; left; reflexivity | simpl; lia].
Defined.

(** ** NaN and the identity in matrix_multiply *)

Lemma partial_dot_nan (A B : matrix pyfloat) (i j k0 : nat) :
  entry (Fin 0) A i k0 = NaN \/ entry (Fin 0) B k0 j = NaN ->
  forall k, (k0 < k)%nat -> partial_dot (Fin 0) fadd fmul A B i j k = NaN.
Proof.
  intros Hnan. induction k as [ | k IH]; intros Hk; [lia | ].
  rewrite partial_dot_S.
  destruct (Nat.eq_dec k0 k) as [<- | Hne].
  - destruct Hnan as [-> | ->].
    + destruct (partial_dot _ _ _ _ _ _ _ _); reflexivity.
    + destruct (partial_dot _ _ _ _ _ _ _ _), (entry _ A i k0); reflexivity.
  - rewrite IH by lia. reflexivity.
Qed.

(** X3.  A NaN spreads along rows and columns: when the product is
    defined, a NaN at [matrix1[i][k]] or at [matrix2[k][j]] makes entry
    [(i, j)] of the result NaN, whatever the other factor holds, zero
    included. *)
Theorem matrix_multiply_nan_spreads :
  forall (A B : matrix pyfloat) (i j k : nat),
    (0 < length B)%nat ->
    length (hd [] A) = length B ->
    rows_reach A (length (hd [] A)) ->
    rows_reach B (length (hd [] B)) ->
    (i < length A)%nat -> (j < length (hd [] B))%nat -> (k < length B)%nat ->
    entry (Fin 0) A i k = NaN \/ entry (Fin 0) B k j = NaN ->
    exists C, fmatmul A B = Ok C /\ entry (Fin 0) C i j = NaN.
Proof.
  intros A B i j k HB Hdim HwA HwB Hi Hj Hk Hnan.
  destruct (matrix_multiply_product (Fin 0) fadd fmul A B)
    as [C [Hrun [_ Hent]]]; try assumption; [lia | ].
  exists C. split; [exact Hrun | ].
  rewrite (Hent i j Hi Hj). now apply (partial_dot_nan A B i j k).
Qed.

Lemma matrix_multiply_nan_spreads_witness :
  exists C,
    fmatmul [ [Fin 0; Fin 0] ] [ [Fin 1]; [NaN] ] = Ok C /\
    entry (Fin 0) C 0 0 = NaN.
Proof.
  apply (matrix_multiply_nan_spreads
           [ [Fin 0; Fin 0] ] [ [Fin 1]; [NaN] ] 0 0 1).
  - simpl; lia.
  - reflexivity.
  - repeat constructor.
  - repeat constructor.
  - simpl; lia.
  - simpl; lia.
  - simpl; lia.
  - right. reflexivity.
Defined.

Lemma identity_matrix_length (n : nat) : length (identity_matrix n) = n.
Proof. unfold identity_matrix. now rewrite length_map, length_seq. Qed.

Lemma identity_matrix_shape (n : nat) : shape (identity_matrix n) n n.
Proof.
  split; [apply identity_matrix_length | ].
  apply Forall_forall. intros row Hin. unfold identity_matrix in Hin.
  apply in_map_iff in Hin as [i [<- _]]. now rewrite length_map, length_seq.
Qed.

Lemma identity_matrix_entry (n i k : nat) :
  (i < n)%nat -> (k < n)%nat ->
  entry (Fin 0) (identity_matrix n) i k
  = if (i =? k)%nat then Fin 1 else Fin 0.
Proof.
  intros Hi Hk. unfold entry, identity_matrix.
  rewrite (nth_indep _ [] (map (fun k0 => if (0 =? k0)%nat then Fin 1 else Fin 0)
                               (seq 0 n)))
    by now rewrite length_map, length_seq.
  rewrite (map_nth (fun i0 => map (fun k0 => if (i0 =? k0)%nat then Fin 1 else Fin 0)
                                  (seq 0 n)) (seq 0 n) 0%nat i).
  rewrite seq_nth by exact Hi. cbn [Nat.add].
  rewrite (nth_indep _ (Fin 0) (if (i =? 0)%nat then Fin 1 else Fin 0))
    by now rewrite length_map, length_seq.
  rewrite (map_nth (fun k0 => if (i =? k0)%nat then Fin 1 else Fin 0)
                   (seq 0 n) 0%nat k).
  rewrite seq_nth by exact Hk. reflexivity.
Qed.

Lemma shape_hd {E : Type} (M : matrix E) (m p : nat) :
  shape M m p -> (0 < m)%nat -> length (hd [] M) = p.
Proof.
  intros [Hlen Hrows] Hm. destruct M as [ | row M']; [simpl in Hlen; lia | ].
  simpl. now inversion Hrows.
Qed.

Lemma shape_rows_reach {E : Type} (M : matrix E) (m p : nat) :
  shape M m p -> rows_reach M p.
Proof.
  intros [_ Hrows]. unfold rows_reach.
  eapply Forall_impl; [ | exact Hrows]. simpl. intros row ->. lia.
Qed.

(** Two matrices of one shape with the same entries are the same list. *)
Lemma shape_entry_ext {E : Type} (zero : E) (C A : matrix E) (m p : nat) :
  shape C m p -> shape A m p ->
  (forall i j, (i < m)%nat -> (j < p)%nat ->
     entry zero C i j = entry zero A i j) ->
  C = A.
Proof.
  intros [LC RC] [LA RA] Hent.
  apply (nth_ext C A [] []); [congruence | ].
  intros i Hi.
  assert (HiA : (i < length A)%nat) by lia.
  assert (HlC : length (nth i C []) = p).
  { rewrite Forall_forall in RC. apply RC. now apply nth_In. }
  assert (HlA : length (nth i A []) = p).
  { rewrite Forall_forall in RA. apply RA. now apply nth_In. }
  apply (nth_ext _ _ zero zero); [congruence | ].
  intros j Hj. apply (Hent i j); lia.
Qed.

Lemma identity_partial_dot (n p : nat) (A : matrix pyfloat) (i j : nat) :
  (i < n)%nat ->
  (forall k, (k < n)%nat -> exists v, entry (Fin 0) A k j = Fin v) ->
  forall k, (k <= n)%nat ->
    partial_dot (Fin 0) fadd fmul (identity_matrix n) A i j k
    = if (i <? k)%nat then entry (Fin 0) A i j else Fin 0.
Proof.
  intros Hi Hnum. induction k as [ | k IH]; intros Hk; [reflexivity | ].
  rewrite partial_dot_S, IH by lia.
  rewrite identity_matrix_entry by lia.
  destruct (Hnum k ltac:(lia)) as [v Hv]. rewrite Hv.
  destruct (Hnum i Hi) as [w Hw]. rewrite Hw.
  destruct (Nat.ltb_spec i k), (Nat.eqb_spec i k), (Nat.ltb_spec i (S k));
    try lia; cbn [fadd fmul lift2]; try (apply (f_equal Fin); ring).
  subst k. rewrite Hw in Hv. injection Hv as ->. apply (f_equal Fin). ring.
Qed.

(** X4.  Multiplying a numeric matrix on the left by the identity of
    matching size returns the matrix unchanged. *)
Theorem identity_times_matrix :
  forall (n p : nat) (A : matrix pyfloat),
    (0 < n)%nat -> shape A n p ->
    (forall i j, (i < n)%nat -> (j < p)%nat ->
       exists v, entry (Fin 0) A i j = Fin v) ->
    fmatmul (identity_matrix n) A = Ok A.
Proof.
  intros n p A Hn HA Hnum.
  pose proof (identity_matrix_shape n) as HI.
  assert (HhdI : length (hd [] (identity_matrix n)) = n)
    by now apply (shape_hd _ n n).
  assert (HhdA : length (hd [] A) = p) by now apply (shape_hd _ n p).
  destruct HA as [LA RA].
  destruct (matrix_multiply_product (Fin 0) fadd fmul (identity_matrix n) A)
    as [C [Hrun [HC Hent]]].
  - rewrite identity_matrix_length. exact Hn.
  - lia.
  - rewrite HhdI. now rewrite LA.
  - rewrite HhdI. now apply (shape_rows_reach _ n n).
  - rewrite HhdA. apply (shape_rows_reach _ n p). now split.
  - unfold fmatmul. rewrite Hrun. f_equal.
    rewrite identity_matrix_length, HhdA in HC, Hent.
    apply (shape_entry_ext (Fin 0) C A n p HC); [now split | ].
    intros i j Hi Hj. rewrite (Hent i j Hi Hj), LA.
    rewrite (identity_partial_dot n p A i j Hi) by (auto || lia).
    assert (Hlt : (i <? n)%nat = true) by now apply Nat.ltb_lt.
    now rewrite Hlt.
Qed.

Lemma identity_times_matrix_witness :
  fmatmul (identity_matrix 2) [ [Fin 1; Fin 2; Fin 3]; [Fin 4; Fin 5; Fin 6] ]
  = Ok [ [Fin 1; Fin 2; Fin 3]; [Fin 4; Fin 5; Fin 6] ].
Proof.
  apply (identity_times_matrix 2 3).
  - lia.
  - split; [reflexivity | repeat constructor].
  - intros i j Hi Hj.
    destruct i as [ | [ | i]]; [ | | lia];
      (destruct j as [ | [ | [ | j]]]; [ | | | lia]);
      unfold entry; simpl; eexists; reflexivity.
Defined.

(** ** Further properties of the transform *)








Lemma fin_triple_eq (a b c a' b' c' : R) :
  a = a' -> b = b' -> c = c' ->
  @Ok (pyfloat * pyfloat * pyfloat) (Fin a, Fin b, Fin c)
  = Ok (Fin a', Fin b', Fin c').
Proof. intros -> -> ->. reflexivity. Qed.





(** ** Further properties of the solve *)

Lemma lat_loop_exit (fuel : nat) (o_z_km r_lon_km : pyfloat) (st : lat_state) :
  loop_guard st = false -> lat_loop fuel o_z_km r_lon_km st = Ok st.
Proof. intros H. destruct fuel; simpl; rewrite H; reflexivity. Qed.

(** ** Mirror symmetry in the equatorial plane *)

Lemma loop_guard_mirror (st : lat_state) :
  loop_guard (mirror_state st) = loop_guard st.
Proof.
  destruct st as [lat prev c k]. unfold loop_guard, mirror_state.
  cbn [o_lat_rad prev_lat_rad count].
  destruct lat as [a | ], prev as [b | ]; try reflexivity.
  cbn [fneg fsub fabs fgt math_isnan lift1 lift2].
  replace (- a - - b) with (- (a - b)) by ring. now rewrite Rabs_Ropp.
Qed.

Lemma denom_at_opp (a : R) : denom_at (- a) = denom_at a.
Proof.
  unfold denom_at. f_equal. rewrite sin_neg. ring.
Qed.

Lemma next_tan_opp (z r a : R) : next_tan (- z) r (- a) = - next_tan z r a.
Proof.
  unfold next_tan. rewrite denom_at_opp, sin_neg. unfold Rdiv. ring.
Qed.

Lemma lat_loop_mirror (z r : R) :
  r <> 0 ->
  forall fuel st a, o_lat_rad st = Fin a ->
    lat_loop fuel (Fin (- z)) (Fin r) (mirror_state st)
    = (st' <- lat_loop fuel (Fin z) (Fin r) st ;; Ok (mirror_state st')).
Proof.
  intros Hr. induction fuel as [ | fuel IH]; intros st a Hlat.
  - simpl. rewrite loop_guard_mirror. destruct (loop_guard st); reflexivity.
  - simpl. rewrite loop_guard_mirror.
    destruct (loop_guard st); [ | reflexivity].
    destruct st as [lat prev c k]. simpl in Hlat. subst lat.
    unfold mirror_state at 1. cbn [o_lat_rad prev_lat_rad c_E count fneg lift1].
    rewrite !loop_body_fin by exact Hr. cbn [bind].
    rewrite denom_at_opp, next_tan_opp, atan_opp.
    apply (IH (mk_lat_state (Fin (atan (next_tan z r a))) (Fin a)
                 (Fin (6378.137 / denom_at a)) (k + 1))
              (atan (next_tan z r a))).
    reflexivity.
Qed.

Lemma sin_lat0_opp (x y z : R) : sin_lat0 x y (- z) = - sin_lat0 x y z.
Proof.
  unfold sin_lat0. replace ((- z) ^ 2) with (z ^ 2) by ring.
  unfold Rdiv. ring.
Qed.

Lemma geodetic_solve_mirror (n : nat) (x y z : R) :
  ~ (x = 0 /\ y = 0) ->
  geodetic_solve (5 + n) (Fin x) (Fin y) (Fin (- z))
  = (geo <- geodetic_solve (5 + n) (Fin x) (Fin y) (Fin z) ;;
     Ok (mirror_state (fst geo), snd geo)).
Proof.
  intros Hxy. unfold geodetic_solve.
  rewrite !initial_state_fin by tauto. cbn [bind].
  rewrite planar_radius_fin. cbn [bind].
  pose proof (planar_radius_nonzero x y Hxy) as Hr.
  rewrite sin_lat0_opp, asin_opp.
  change (mk_lat_state (Fin (- asin (sin_lat0 x y z))) NaN NaN 0)
    with (mirror_state (mk_lat_state (Fin (asin (sin_lat0 x y z))) NaN NaN 0)).
  rewrite (lat_loop_mirror z _ Hr (5 + n)
             (mk_lat_state (Fin (asin (sin_lat0 x y z))) NaN NaN 0)
             (asin (sin_lat0 x y z)) eq_refl).
  destruct (lat_loop (5 + n) (Fin z) (Fin (sqrt (x ^ 2 + y ^ 2))) _);
    reflexivity.
Qed.

Lemma main_mirror_off_axis (n : nat) (x y z tx ty tz : R) :
  ~ (x = 0 /\ y = 0) ->
  main (5 + n) (Fin x) (Fin y) (Fin (- z)) (Fin tx) (Fin ty) (Fin (- tz))
  = (out <- main (5 + n) (Fin x) (Fin y) (Fin z) (Fin tx) (Fin ty) (Fin tz) ;;
     Ok (fneg (fst (fst out)), snd (fst out), snd out)).
Proof.
  intros Hxy. rewrite !main_unfold.
  rewrite geodetic_solve_mirror by exact Hxy.
  destruct (geodetic_solve_fin x y z n (fun _ => True) Hxy I (fun _ _ => I))
    as [st [a [b [-> [Hlat _]]]]].
  cbn [bind fst snd]. destruct st as [lat prev c k].
  simpl in Hlat. subst lat.
  cbn [mirror_state o_lat_rad fneg fsub lift1 lift2].
  rewrite !sez_components_fin. cbn [fst snd fneg lift1].
  rewrite sin_neg, cos_neg.
  apply fin_triple_eq; ring.
Qed.

(** ** The geocentric estimate and the result *)





Lemma sez_components_at_origin (lat lon x y z : R) :
  sez_components (Fin lat) (Fin lon) (fsub (Fin x) (Fin x))
    (fsub (Fin y) (Fin y)) (fsub (Fin z) (Fin z))
  = (Fin 0, Fin 0, Fin 0).
Proof.
  cbn [fsub lift2]. rewrite sez_components_fin.
  f_equal; [f_equal | ]; apply (f_equal Fin); ring.
Qed.


(** * Properties within the binary64 range *)

(** ** The exact and the checked squares *)

Lemma moderate_abs (v : R) :
  1e-150 <= v <= 1e150 \/ 1e-150 <= - v <= 1e150 -> moderate v.
Proof.
  intros [H | H]; right.
  - rewrite Rabs_pos_eq by lra. exact H.
  - rewrite Rabs_left by lra. exact H.
Qed.

Lemma moderate_opp (v : R) : moderate v -> moderate (- v).
Proof.
  intros [-> | H]; [left; ring | right]. now rewrite Rabs_Ropp.
Qed.

Lemma moderate_square (v : R) :
  moderate v -> v = 0 \/ 1e-300 <= v ^ 2 <= 1e300.
Proof.
  intros [-> | [Hl Hu]]; [now left | right].
  rewrite <- pow2_abs.
  assert (H0 : 0 <= Rabs v) by apply Rabs_pos.
  split; nra.
Qed.

Lemma checked_square_moderate (a : pyfloat) :
  moderate_float a -> checked_square a = Ok (fsquare a).
Proof.
  destruct a as [v | ]; [ | reflexivity].
  cbn [moderate_float]. intros H. apply moderate_square in H.
  unfold checked_square, overflow_bound, underflow_bound.
  cbn [fsquare lift1].
  destruct (Rle_dec (2 ^ 1024 - 2 ^ 970) (v ^ 2)) as [Ho | _].
  - exfalso. destruct H as [-> | [_ Hu]]; lra.
  - destruct (Rle_dec (v ^ 2) (/ 2 ^ 1075)) as [Hu | _]; [ | reflexivity].
    destruct H as [-> | [Hl _]]; [ | exfalso; lra].
    do 2 f_equal. ring.
Qed.

Lemma checked_geodetic_solve_moderate (fuel : nat)
  (o_x_km o_y_km o_z_km : pyfloat) :
  moderate_float o_x_km -> moderate_float o_y_km -> moderate_float o_z_km ->
  checked_geodetic_solve fuel o_x_km o_y_km o_z_km
  = geodetic_solve fuel o_x_km o_y_km o_z_km.
Proof.
  intros Hx Hy Hz.
  unfold checked_geodetic_solve, checked_initial_state,
    geodetic_solve, initial_state.
  rewrite (checked_square_moderate o_x_km Hx),
    (checked_square_moderate o_y_km Hy),
    (checked_square_moderate o_z_km Hz).
  reflexivity.
Qed.

Lemma checked_main_moderate (fuel : nat)
  (o_x_km o_y_km o_z_km x_km y_km z_km : pyfloat) :
  moderate_float o_x_km -> moderate_float o_y_km -> moderate_float o_z_km ->
  checked_main fuel o_x_km o_y_km o_z_km x_km y_km z_km
  = main fuel o_x_km o_y_km o_z_km x_km y_km z_km.
Proof.
  intros Hx Hy Hz. unfold checked_main, main.
  now rewrite checked_geodetic_solve_moderate.
Qed.


(** ** The solve *)





(** ** Inputs with NaN *)

Lemma nan_input_exact (n : nat)
  (o_x_km o_y_km o_z_km x_km y_km z_km : pyfloat) :
  o_x_km = NaN \/ o_y_km = NaN \/ o_z_km = NaN \/
  x_km = NaN \/ y_km = NaN \/ z_km = NaN ->
  ~ (o_x_km = Fin 0 /\ o_y_km = Fin 0) ->
  main (5 + n) o_x_km o_y_km o_z_km x_km y_km z_km = Ok (NaN, NaN, NaN).
Proof.
  intros Hnan Haxis. rewrite main_unfold.
  destruct (geodetic_solve_returns n o_x_km o_y_km o_z_km Haxis) as [geo ->].
  cbn [bind]. rewrite sez_components_nan; [reflexivity | ].
  now apply relative_vector_nan.
Qed.

(** C9, as the code has it.  When one of the six inputs is NaN and each
    origin component is NaN, zero or between 1e-150 and 1e150 in
    magnitude, the script prints NaN for S, E and Z without raising,
    provided the origin's [x] and [y] are not both zero; when they are
    both zero it raises [ZeroDivisionError], NaN or not. *)
Theorem nan_input_propagates :
  forall (n : nat) (o_x_km o_y_km o_z_km x_km y_km z_km : pyfloat),
    moderate_float o_x_km -> moderate_float o_y_km -> moderate_float o_z_km ->
    o_x_km = NaN \/ o_y_km = NaN \/ o_z_km = NaN \/
    x_km = NaN \/ y_km = NaN \/ z_km = NaN ->
    (~ (o_x_km = Fin 0 /\ o_y_km = Fin 0) ->
     checked_main (5 + n) o_x_km o_y_km o_z_km x_km y_km z_km
     = Ok (NaN, NaN, NaN)) /\
    (o_x_km = Fin 0 /\ o_y_km = Fin 0 ->
     checked_main (5 + n) o_x_km o_y_km o_z_km x_km y_km z_km
     = Raise ZeroDivisionError).
Proof.
  intros n o_x_km o_y_km o_z_km x_km y_km z_km Hx Hy Hz Hnan.
  rewrite checked_main_moderate by assumption. split.
  - now apply nan_input_exact.
  - intros [-> ->]. apply main_on_axis.
Qed.

Lemma nan_input_propagates_witness :
  checked_main 5 (Fin 1) (Fin 0) NaN (Fin 1) (Fin 2) (Fin 3)
  = Ok (NaN, NaN, NaN).
Proof.
  apply (nan_input_propagates 0 (Fin 1) (Fin 0) NaN (Fin 1) (Fin 2) (Fin 3)).
  - apply moderate_abs. left. lra.
  - left. reflexivity.
  - exact I.
  - tauto.
  - intros [H _]. injection H as H. lra.
Defined.

(** ** calc_denom *)

(** X5.  For an eccentricity between -1 and 1 [calc_denom] never raises:
    at every numeric latitude it returns a number between 0 and 1, and
    NaN at a NaN latitude.  For [E_E] the result is above 0.99, so the
    division of line 102 never has a zero divisor.  A NaN eccentricity
    gives NaN. *)
Theorem calc_denom_domain :
  (forall ecc lat : R,
     -1 <= ecc <= 1 ->
     (exists d, calc_denom (Fin ecc) (Fin lat) = Ok (Fin d) /\ 0 <= d <= 1) /\
     calc_denom (Fin ecc) NaN = Ok NaN) /\
  (forall lat : R,
     exists d, calc_denom E_E (Fin lat) = Ok (Fin d) /\ 0.99 < d <= 1) /\
  (forall lat : pyfloat, calc_denom NaN lat = Ok NaN).
Proof.
  split; [ | split].
  - intros ecc lat He. split; [ | reflexivity].
    pose proof (SIN_bound lat) as [Hl Hu].
    assert (Hs : 0 <= sin lat ^ 2 <= 1) by (split; nra).
    assert (He2 : 0 <= ecc ^ 2 <= 1) by (split; nra).
    assert (Hp : 0 <= ecc ^ 2 * sin lat ^ 2 <= 1) by (split; nra).
    exists (sqrt (1.0 - ecc ^ 2 * sin lat ^ 2)). split.
    + unfold calc_denom. cbn [fsquare fmul fsub math_sin lift1 lift2].
      apply math_sqrt_nonneg. lra.
    + apply (sqrt_between 0 1); lra.
  - intros lat. exists (denom_at lat). split; [apply calc_denom_fin | ].
    pose proof (SIN_bound lat) as [Hl Hu].
    assert (Hs : 0 <= sin lat ^ 2 <= 1) by (split; nra).
    unfold denom_at.
    assert (H : 0.995 <= sqrt (1.0 - 0.081819221456 ^ 2 * sin lat ^ 2) <= 1)
      by (apply sqrt_between; nra).
    lra.
  - intros lat. reflexivity.
Qed.

(** ** The script on inputs within the range *)

Lemma main_outcome_exact (n : nat)
  (o_x_km o_y_km o_z_km x_km y_km z_km : pyfloat) :
  (o_x_km = Fin 0 /\ o_y_km = Fin 0 ->
   main (5 + n) o_x_km o_y_km o_z_km x_km y_km z_km
   = Raise ZeroDivisionError) /\
  (~ (o_x_km = Fin 0 /\ o_y_km = Fin 0) ->
   exists S E Z,
     main (5 + n) o_x_km o_y_km o_z_km x_km y_km z_km = Ok (S, E, Z)) /\
  (forall ox oy oz x y z : R,
     o_x_km = Fin ox -> o_y_km = Fin oy -> o_z_km = Fin oz ->
     x_km = Fin x -> y_km = Fin y -> z_km = Fin z ->
     ~ (ox = 0 /\ oy = 0) ->
     exists S E Z : R,
       main (5 + n) o_x_km o_y_km o_z_km x_km y_km z_km
       = Ok (Fin S, Fin E, Fin Z)).
Proof.
  split; [ | split].
  - intros [-> ->]. apply main_on_axis.
  - intros Haxis. rewrite main_unfold.
    destruct (geodetic_solve_returns n o_x_km o_y_km o_z_km Haxis) as [geo ->].
    cbn [bind].
    destruct (sez_components _ _ _ _ _) as [[S E] Z]. eauto.
  - intros ox oy oz x y z -> -> -> -> -> -> Hxy. rewrite main_unfold.
    destruct (geodetic_solve_fin ox oy oz n (fun _ => True) Hxy I (fun _ _ => I))
      as [st [a [b [-> [Hlat _]]]]].
    cbn [bind fst snd]. rewrite Hlat. cbn [fsub lift2].
    rewrite sez_components_fin. eauto.
Qed.

(** X6.  When each origin component is NaN, zero or between 1e-150 and
    1e150 in magnitude and each target component is NaN or at most 1e150
    in magnitude, the script raises exactly when the origin's [x] and
    [y] are both zero, and then it is [ZeroDivisionError]; otherwise it
    prints three values, and three numbers when the six inputs are
    numbers. *)
Theorem main_outcome :
  forall (n : nat) (o_x_km o_y_km o_z_km x_km y_km z_km : pyfloat),
    moderate_float o_x_km -> moderate_float o_y_km -> moderate_float o_z_km ->
    bounded_float x_km -> bounded_float y_km -> bounded_float z_km ->
    (o_x_km = Fin 0 /\ o_y_km = Fin 0 ->
     checked_main (5 + n) o_x_km o_y_km o_z_km x_km y_km z_km
     = Raise ZeroDivisionError) /\
    (~ (o_x_km = Fin 0 /\ o_y_km = Fin 0) ->
     exists S E Z,
       checked_main (5 + n) o_x_km o_y_km o_z_km x_km y_km z_km
       = Ok (S, E, Z)) /\
    (forall ox oy oz x y z : R,
       o_x_km = Fin ox -> o_y_km = Fin oy -> o_z_km = Fin oz ->
       x_km = Fin x -> y_km = Fin y -> z_km = Fin z ->
       ~ (ox = 0 /\ oy = 0) ->
       exists S E Z : R,
         checked_main (5 + n) o_x_km o_y_km o_z_km x_km y_km z_km
         = Ok (Fin S, Fin E, Fin Z)).
Proof.
  intros n o_x_km o_y_km o_z_km x_km y_km z_km Hx Hy Hz _ _ _.
  rewrite checked_main_moderate by assumption.
  apply main_outcome_exact.
Qed.

Lemma main_outcome_witness :
  exists S E Z,
    checked_main 5 (Fin 1) (Fin 0) (Fin 0) (Fin 1) (Fin 2) (Fin 3)
    = Ok (S, E, Z).
Proof.
  assert (H1 : moderate 1) by (apply moderate_abs; left; lra).
  assert (H0 : moderate 0) by (left; reflexivity).
  assert (B1 : Rabs 1 <= 1e150) by (rewrite Rabs_pos_eq; lra).
  assert (B2 : Rabs 2 <= 1e150) by (rewrite Rabs_pos_eq; lra).
  assert (B3 : Rabs 3 <= 1e150) by (rewrite Rabs_pos_eq; lra).
  apply (main_outcome 0 (Fin 1) (Fin 0) (Fin 0) (Fin 1) (Fin 2) (Fin 3)
           H1 H0 H0 B1 B2 B3).
  intros [H _]. injection H as H. lra.
Defined.

Lemma equatorial_origin_exact (n : nat) (x y tx ty tz : R) :
  ~ (x = 0 /\ y = 0) ->
  (exists c,
     geodetic_solve (5 + n) (Fin x) (Fin y) (Fin 0)
     = Ok (mk_lat_state (Fin 0) (Fin 0) c 1, Fin (atan2 y x))) /\
  main (5 + n) (Fin x) (Fin y) (Fin 0) (Fin tx) (Fin ty) (Fin tz)
  = Ok (Fin (- tz),
        Fin (- sin (atan2 y x) * (tx - x) + cos (atan2 y x) * (ty - y)),
        Fin (cos (atan2 y x) * (tx - x) + sin (atan2 y x) * (ty - y))).
Proof.
  intros Hxy.
  assert (Hsolve : exists c,
            geodetic_solve (5 + n) (Fin x) (Fin y) (Fin 0)
            = Ok (mk_lat_state (Fin 0) (Fin 0) c 1, Fin (atan2 y x))).
  { unfold geodetic_solve.
    rewrite initial_state_fin by tauto. cbn [bind].
    rewrite planar_radius_fin. cbn [bind].
    pose proof (planar_radius_nonzero x y Hxy) as Hr.
    change (5 + n)%nat with (S (4 + n)). rewrite first_pass.
    rewrite loop_body_fin by exact Hr. cbn [bind].
    assert (H0 : asin (sin_lat0 x y 0) = 0).
    { unfold sin_lat0. replace (0 / sqrt (x ^ 2 + y ^ 2 + 0 ^ 2)) with 0
        by (unfold Rdiv; ring). apply asin_0. }
    rewrite H0.
    assert (H1 : atan (next_tan 0 (sqrt (x ^ 2 + y ^ 2)) 0) = 0).
    { unfold next_tan. rewrite sin_0.
      replace ((0 + 6378.137 / denom_at 0 * 0.081819221456 ^ 2 * 0)
               / sqrt (x ^ 2 + y ^ 2)) with 0 by (unfold Rdiv; ring).
      apply atan_0. }
    rewrite H1.
    rewrite lat_loop_exit; [cbn [bind]; eauto | ].
    unfold loop_guard. cbn [prev_lat_rad o_lat_rad math_isnan fsub fabs fgt
                              lift1 lift2 orb].
    destruct (Rlt_dec 10e-7 (Rabs (0 - 0))) as [H | H]; [ | reflexivity].
    exfalso. rewrite Rminus_diag, Rabs_R0 in H. lra. }
  split; [exact Hsolve | ].
  destruct Hsolve as [c Hsolve].
  rewrite main_unfold, Hsolve. cbn [bind fst snd o_lat_rad fsub lift2].
  rewrite sez_components_fin. rewrite sin_0, cos_0.
  apply fin_triple_eq; ring.
Qed.

(** X7.  For an origin in the equatorial plane ([z = 0]) whose [x] and
    [y] are zero or between 1e-150 and 1e150 in magnitude, not both zero
    and off the half-plane [y = 0], [x < 0], and a target of components
    at most 1e150 in magnitude, the loop makes a single pass and the
    latitude is exactly zero, so the script prints [S = - dz],
    [E = - sin lon dx + cos lon dy] and [Z = cos lon dx + sin lon dy],
    with [lon = atan2(y, x)] and [d = target - origin]. *)
Theorem equatorial_origin :
  forall (n : nat) (x y tx ty tz : R),
    moderate x -> moderate y ->
    Rabs tx <= 1e150 -> Rabs ty <= 1e150 -> Rabs tz <= 1e150 ->
    ~ (x = 0 /\ y = 0) ->
    ~ (y = 0 /\ x < 0) ->
    (exists c,
       checked_geodetic_solve (5 + n) (Fin x) (Fin y) (Fin 0)
       = Ok (mk_lat_state (Fin 0) (Fin 0) c 1, Fin (atan2 y x))) /\
    checked_main (5 + n) (Fin x) (Fin y) (Fin 0) (Fin tx) (Fin ty) (Fin tz)
    = Ok (Fin (- tz),
          Fin (- sin (atan2 y x) * (tx - x) + cos (atan2 y x) * (ty - y)),
          Fin (cos (atan2 y x) * (tx - x) + sin (atan2 y x) * (ty - y))).
Proof.
  intros n x y tx ty tz Hx Hy _ _ _ Hxy _.
  assert (H0 : moderate_float (Fin 0)) by (left; reflexivity).
  rewrite checked_geodetic_solve_moderate, checked_main_moderate
    by assumption.
  now apply equatorial_origin_exact.
Qed.

Lemma equatorial_origin_witness :
  checked_main 5 (Fin 1) (Fin 0) (Fin 0) (Fin 1) (Fin 0) (Fin 7)
  = Ok (Fin (- 7),
        Fin (- sin (atan2 0 1) * (1 - 1) + cos (atan2 0 1) * (0 - 0)),
        Fin (cos (atan2 0 1) * (1 - 1) + sin (atan2 0 1) * (0 - 0))).
Proof.
  apply (equatorial_origin 0 1 0 1 0 7).
  - apply moderate_abs. left. lra.
  - left. reflexivity.
  - rewrite Rabs_pos_eq; lra.
  - rewrite Rabs_R0. lra.
  - rewrite Rabs_pos_eq; lra.
  - intros [H _]. lra.
  - intros [_ H]. lra.
Defined.




Lemma main_mirror_exact (n : nat) (x y z tx ty tz : R) :
  main (5 + n) (Fin x) (Fin y) (Fin (- z)) (Fin tx) (Fin ty) (Fin (- tz))
  = (out <- main (5 + n) (Fin x) (Fin y) (Fin z) (Fin tx) (Fin ty) (Fin tz) ;;
     Ok (fneg (fst (fst out)), snd (fst out), snd out)).
Proof.
  destruct (Req_dec_T x 0) as [Hx | Hx];
    [destruct (Req_dec_T y 0) as [Hy | Hy] | ].
  - subst. rewrite !main_on_axis. reflexivity.
  - apply main_mirror_off_axis. tauto.
  - apply main_mirror_off_axis. tauto.
Qed.

(** X9.  Mirroring the origin and the target in the equatorial plane
    (the sign of both [z] changed) changes the sign of the printed S and
    leaves E and Z as they are, and a run that raises on one side raises
    the same exception on the other; for an origin of components zero or
    between 1e-150 and 1e150 in magnitude and a target of components at
    most 1e150 in magnitude. *)
Theorem main_mirror :
  forall (n : nat) (x y z tx ty tz : R),
    moderate x -> moderate y -> moderate z ->
    Rabs tx <= 1e150 -> Rabs ty <= 1e150 -> Rabs tz <= 1e150 ->
    checked_main (5 + n) (Fin x) (Fin y) (Fin (- z))
      (Fin tx) (Fin ty) (Fin (- tz))
    = (out <- checked_main (5 + n) (Fin x) (Fin y) (Fin z)
                (Fin tx) (Fin ty) (Fin tz) ;;
       Ok (fneg (fst (fst out)), snd (fst out), snd out)).
Proof.
  intros n x y z tx ty tz Hx Hy Hz _ _ _.
  assert (Hz' : moderate_float (Fin (- z))) by now apply moderate_opp.
  rewrite !checked_main_moderate by assumption.
  apply main_mirror_exact.
Qed.

Lemma main_mirror_witness :
  checked_main 5 (Fin 1) (Fin 2) (Fin (- 3)) (Fin 4) (Fin 5) (Fin (- 6))
  = (out <- checked_main 5 (Fin 1) (Fin 2) (Fin 3) (Fin 4) (Fin 5) (Fin 6) ;;
     Ok (fneg (fst (fst out)), snd (fst out), snd out)).
Proof.
  apply (main_mirror 0 1 2 3 4 5 6);
    first [ apply moderate_abs; left; lra | rewrite Rabs_pos_eq; lra ].
Defined.

(** X15.  Run with the target at a numeric origin whose components are
    zero or between 1e-150 and 1e150 in magnitude, [x] and [y] not both
    zero, the script prints three zeros. *)
Theorem main_target_at_origin :
  forall (n : nat) (x y z : R),
    moderate x -> moderate y -> moderate z ->
    ~ (x = 0 /\ y = 0) ->
    checked_main (5 + n) (Fin x) (Fin y) (Fin z) (Fin x) (Fin y) (Fin z)
    = Ok (Fin 0, Fin 0, Fin 0).
Proof.
  intros n x y z Hx Hy Hz Hxy.
  rewrite checked_main_moderate by assumption. rewrite main_unfold.
  destruct (geodetic_solve_fin x y z n (fun _ => True) Hxy I (fun _ _ => I))
    as [st [a [b [-> [Hlat _]]]]].
  cbn [bind fst snd]. rewrite Hlat.
  now rewrite sez_components_at_origin.
Qed.

Lemma main_target_at_origin_witness :
  checked_main 5 (Fin 822.933) (Fin (-4787.187)) (Fin 4120.262)
    (Fin 822.933) (Fin (-4787.187)) (Fin 4120.262)
  = Ok (Fin 0, Fin 0, Fin 0).
Proof.
  apply (main_target_at_origin 0 822.933 (-4787.187) 4120.262).
  - apply moderate_abs. left. lra.
  - apply moderate_abs. right. lra.
  - apply moderate_abs. left. lra.
  - intros [H _]. lra.
Defined.
